(** * screencovid.com backend: the survey submission handler

    A shallow embedding of [docs/backend/function.go] (package [http]) and
    the properties of its single HTTP handler, [CORSEnabledFunctionAuth].

    The handler talks to four things outside the program: the
    [http.ResponseWriter] it is given, the body of the request, the
    reCAPTCHA verification service and the storage bucket.  The first two
    are modelled as state; the last two, together with the clock and the
    functions of [encoding/json], are provided by an environment [Env].
    Every call that leaves the program is recorded in a trace of events. *)

From Stdlib Require Import ZArith Ascii String List Lia Bool.
From Stdlib Require Import PrimFloat.
From stdpp Require Import base tactics option list strings gmap.

Local Open Scope Z_scope.

(** ** Go values *)

(** A Go [error]: the sentinel [io.EOF], compared by identity, or any other
    error, of which only the text returned by [Error()] matters here. *)
Inductive error : Type :=
  | io_EOF
  | errorString (msg : string).

Definition Error (e : error) : string :=
  match e with
  | io_EOF => "EOF"
  | errorString msg => msg
  end.

Definition is_EOF (e : error) : bool :=
  match e with
  | io_EOF => true
  | errorString _ => false
  end.

(** [[]byte]. *)
Abbreviation bytes := (list Byte.byte).

Definition bytes_of_string (s : string) : bytes := list_byte_of_string s.

(** [fmt.Errorf(prefix + "%s", err)]. *)
Definition fmt_Errorf (prefix : string) (err : error) : error :=
  errorString (prefix +:+ Error err).

(** ** [io.Reader], [io.LimitReader] and [ioutil.ReadAll] *)

(** [Read r n] is one call [r.Read(p)] with [len(p) = n]: the bytes
    delivered (at most [n]), the error returned with them and the reader
    afterwards.  [remaining] bounds the number of bytes the reader can still
    deliver; [ioutil_ReadAll] takes its number of iterations from it. *)
Class Reader (R : Type) : Type := {
  Read : R -> nat -> bytes * option error * R;
  remaining : R -> nat
}.

(** The body of an HTTP message as the transport hands it over: the bytes
    still to come and how the stream ends once they are consumed ([None]
    for a clean end of file, [Some e] for a transport error). *)
Record Body : Type := mkBody {
  pending : bytes;
  ending : option error
}.

Definition Body_Read (b : Body) (n : nat) : bytes * option error * Body :=
  match pending b with
  | [] => ([], Some (default io_EOF (ending b)), b)
  | _ :: _ =>
      (take n (pending b), None,
       {| pending := drop n (pending b); ending := ending b |})
  end.

#[export] Instance Body_Reader : Reader Body := {
  Read := Body_Read;
  remaining b := length (pending b)
}.

(** [io.LimitedReader]: the underlying reader [R] and the budget [N]. *)
Record LimitedReader (R : Type) : Type := mkLimitedReader {
  lr_R : R;
  lr_N : Z
}.
Arguments mkLimitedReader {R} _ _.
Arguments lr_R {R} _.
Arguments lr_N {R} _.

Definition io_LimitReader {R : Type} (r : R) (n : Z) : LimitedReader R :=
  mkLimitedReader r n.

(** [func (l *LimitedReader) Read(p []byte) (n int, err error)]:
    end of file once the budget is spent, otherwise a read of the
    underlying reader with [p] cut to the budget. *)
Definition LimitedReader_Read {R : Type} `{Reader R}
    (l : LimitedReader R) (n : nat) : bytes * option error * LimitedReader R :=
  if lr_N l <=? 0 then ([], Some io_EOF, l)
  else
    let n' := if lr_N l <? Z.of_nat n then Z.to_nat (lr_N l) else n in
    let '(p, err, r') := Read (lr_R l) n' in
    (p, err, mkLimitedReader r' (lr_N l - Z.of_nat (length p))).

#[export] Instance LimitedReader_Reader {R : Type} `{Reader R} :
    Reader (LimitedReader R) := {
  Read := LimitedReader_Read;
  remaining l := remaining (lr_R l)
}.

(** [bytes.MinRead], the size of the buffer [ReadAll] offers to [Read]. *)
Definition MinRead : nat := 512.

(** The loop of [ioutil.ReadAll]: read until an error; [io.EOF] is the
    normal end and is not reported.  [None] when the iterations run out. *)
Fixpoint ReadAll_loop {R : Type} `{Reader R}
    (fuel : nat) (r : R) (b : bytes) : option (bytes * option error * R) :=
  match fuel with
  | O => None
  | S fuel' =>
      let '(p, err, r') := Read r MinRead in
      match err with
      | Some e => Some (b ++ p, if is_EOF e then None else Some e, r')
      | None => ReadAll_loop fuel' r' (b ++ p)
      end
  end.

Definition ioutil_ReadAll {R : Type} `{Reader R}
    (r : R) : option (bytes * option error * R) :=
  ReadAll_loop (S (remaining r)) r [].

(** ** [time.Time] and the layout the handler formats with *)

(** An instant (seconds since the Unix epoch) together with the offset,
    in seconds east of UTC, that the location of the value gives it.
    [time.Now()] returns the instant in the location [time.Local];
    [t.UTC()] is the same instant with offset zero. *)
Record time_Time : Type := mkTime {
  unixSec : Z;
  zoneOffset : Z
}.

Definition time_UTC (t : time_Time) : time_Time :=
  {| unixSec := unixSec t; zoneOffset := 0 |}.

(** Seconds of the wall clock the value shows. *)
Definition wallSec (t : time_Time) : Z := unixSec t + zoneOffset t.

Definition time_Hour (t : time_Time) : Z := (wallSec t mod 86400) / 3600.
Definition time_Minute (t : time_Time) : Z := (wallSec t mod 3600) / 60.

(** The date of the proleptic Gregorian calendar for a number of days since
    1970-01-01: year, month (1..12) and day of the month (1..31). *)
Definition civil_from_days (days : Z) : Z * Z * Z :=
  let z := days + 719468 in
  let era := z / 146097 in
  let doe := z - era * 146097 in
  let yoe := (doe - doe / 1460 + doe / 36524 - doe / 146096) / 365 in
  let doy := doe - (365 * yoe + yoe / 4 - yoe / 100) in
  let mp := (5 * doy + 2) / 153 in
  let d := doy - (153 * mp + 2) / 5 + 1 in
  let m := if mp <? 10 then mp + 3 else mp - 9 in
  let y := yoe + era * 400 + (if m <=? 2 then 1 else 0) in
  (y, m, d).

Definition time_Date (t : time_Time) : Z * Z * Z :=
  civil_from_days (wallSec t / 86400).

Definition time_Year (t : time_Time) : Z := (time_Date t).1.1.
Definition time_Month (t : time_Time) : Z := (time_Date t).1.2.
Definition time_Day (t : time_Time) : Z := (time_Date t).2.

Definition digit (d : Z) : ascii := ascii_of_nat (48 + Z.to_nat d).

(** The digit loop of [appendInt]; its buffer holds twenty digits. *)
Fixpoint utoa (fuel : nat) (u : Z) (acc : string) : string :=
  match fuel with
  | O => acc
  | S fuel' =>
      if u <? 10 then String (digit u) acc
      else utoa fuel' (u / 10) (String (digit (u mod 10)) acc)
  end.

Fixpoint zeros (n : nat) : string :=
  match n with
  | O => EmptyString
  | S n' => String "0" (zeros n')
  end.

(** [appendInt(b, x, width)]: decimal, a sign for negative numbers, padded
    with zeros on the left to [width] digits. *)
Definition appendInt (x : Z) (width : nat) : string :=
  let ds := utoa 20 (Z.abs x) EmptyString in
  (if x <? 0 then "-" else "") +:+
  zeros (width - String.length ds)%nat +:+ ds.

(** [t.Format(layout)] for the part of the layout language the handler
    uses: the chunks [2006] (year, four digits), [01] (month), [02] (day),
    [15] (hour, 00..23) and [04] (minute), each two digits; every other
    character of the layout is copied.  [skip] counts the characters of a
    chunk that are still to be passed over. *)
Fixpoint Format_from (t : time_Time) (skip : nat) (layout : string) : string :=
  match layout with
  | EmptyString => EmptyString
  | String c rest =>
      match skip with
      | S skip' => Format_from t skip' rest
      | O =>
          if String.prefix "2006" layout
          then appendInt (time_Year t) 4 +:+ Format_from t 3 rest
          else if String.prefix "01" layout
          then appendInt (time_Month t) 2 +:+ Format_from t 1 rest
          else if String.prefix "02" layout
          then appendInt (time_Day t) 2 +:+ Format_from t 1 rest
          else if String.prefix "15" layout
          then appendInt (time_Hour t) 2 +:+ Format_from t 1 rest
          else if String.prefix "04" layout
          then appendInt (time_Minute t) 2 +:+ Format_from t 1 rest
          else String c (Format_from t 0 rest)
      end
  end.

Definition time_Format (t : time_Time) (layout : string) : string :=
  Format_from t 0 layout.

(** ** [net/http]: headers, requests, the response writer *)

(** [http.Header] and [url.Values] are both [map[string][]string]. *)
Abbreviation Values := (gmap string (list string)).

(** [h.Set(key, value)] replaces the values of [key] by the single
    [value]; [h.Get(key)] is the first value of [key] or the empty string.
    All keys the program uses are already in canonical form. *)
Definition Header_Set (key value : string) (h : Values) : Values :=
  <[key := [value]]> h.

Definition Header_Get (key : string) (h : Values) : string :=
  match h !! key with
  | Some (v :: _) => v
  | _ => ""
  end.

Definition MethodOptions : string := "OPTIONS".
Definition StatusOK : Z := 200.
Definition StatusNoContent : Z := 204.
Definition StatusBadRequest : Z := 400.
Definition StatusInternalServerError : Z := 500.

Record Request : Type := mkRequest {
  Method : string;
  Header : Values;
  Body_ : Body
}.

Record http_Response : Type := mkResponse {
  resp_Body : Body
}.

(** The state of an [http.ResponseWriter]: the header map the handler
    edits, whether the status line has gone out, and what went out: the
    status code, the headers as they were at that moment and the body
    bytes written since. *)
Record ResponseWriter : Type := mkResponseWriter {
  header : Values;
  wroteHeader : bool;
  status : Z;
  sentHeader : Values;
  written : bytes
}.

Definition newResponseWriter : ResponseWriter :=
  {| header := ∅; wroteHeader := false; status := 0;
     sentHeader := ∅; written := [] |}.

(** [w.Header().Set(key, value)]. *)
Definition rw_Header_Set (key value : string) (w : ResponseWriter) : ResponseWriter :=
  {| header := Header_Set key value (header w);
     wroteHeader := wroteHeader w; status := status w;
     sentHeader := sentHeader w; written := written w |}.

(** [w.WriteHeader(code)]: the first call sends the status line and the
    headers; a later call is superfluous and changes nothing. *)
Definition rw_WriteHeader (code : Z) (w : ResponseWriter) : ResponseWriter :=
  if wroteHeader w then w
  else {| header := header w; wroteHeader := true; status := code;
          sentHeader := header w; written := written w |}.

(** Statuses 1xx, 204 and 304 carry no body. *)
Definition bodyAllowedForStatus (code : Z) : bool :=
  if (100 <=? code) && (code <=? 199) then false
  else if code =? 204 then false
  else if code =? 304 then false
  else true.

(** [w.Write(p)]: sends status 200 first if no status has gone out. *)
Definition rw_Write (p : bytes) (w : ResponseWriter) : ResponseWriter :=
  let w' := rw_WriteHeader StatusOK w in
  if bodyAllowedForStatus (status w') then
    {| header := header w'; wroteHeader := wroteHeader w';
       status := status w'; sentHeader := sentHeader w';
       written := written w' ++ p |}
  else w'.

(** ** The program's types and constants *)

Definition LIMIT : Z := 32768.
Definition recaptchaServerName : string :=
  "https://www.google.com/recaptcha/api/siteverify".

Record serverRequest : Type := mkServerRequest {
  ReCaptchaToken : string;
  ID : string;
  Answers : bytes (* json.RawMessage *)
}.

Record serverResponse : Type := mkServerResponse {
  Status : string;
  Message : string
}.

Record recaptchaResponse : Type := mkRecaptchaResponse {
  Success : bool;
  Score : float;
  Action : string;
  ChallengeTS : time_Time;
  Hostname : string;
  ErrorCodes : list string
}.

(** The zero value of [recaptchaResponse] ([var r recaptchaResponse]). *)
Definition zero_recaptchaResponse : recaptchaResponse :=
  {| Success := false; Score := PrimFloat.zero; Action := "";
     ChallengeTS := mkTime (-62135596800) 0; Hostname := "";
     ErrorCodes := [] |}.

(** ** The environment of one request *)

(** The package variables [init] sets, and what the world outside answers:
    the functions of [encoding/json] at the types the program uses them,
    [http.PostForm], the clock, and the two calls on the bucket's object
    writer that can fail ([io.Copy] into it and [Close]), each as a function
    of the object name and the payload. *)
Record Env : Type := mkEnv {
  recaptchaPrivateKey : string;
  recaptchaBypass : string;
  json_Unmarshal_serverRequest : bytes -> serverRequest * option error;
  json_Unmarshal_recaptchaResponse : bytes -> recaptchaResponse * option error;
  json_Marshal_serverResponse : serverResponse -> bytes * option error;
  json_Marshal_RawMessage : bytes -> bytes * option error;
  http_PostForm : string -> Values -> http_Response * option error;
  time_Now : time_Time;
  io_Copy : string -> bytes -> option error;
  wc_Close : string -> bytes -> option error
}.

(** What the handler does that is visible outside it, in order. *)
Inductive Event : Type :=
  | EvLog (line : string)                    (* log.Println *)
  | EvUnmarshal (data : bytes)               (* json.Unmarshal(data, &t) *)
  | EvPostForm (url : string) (form : Values) (* http.PostForm *)
  | EvNewWriter (id : string)                (* bucket.Object(id).NewWriter *)
  | EvCopy (id : string) (payload : bytes)   (* io.Copy(wc, payload) *)
  | EvClose (id : string).                   (* wc.Close() *)

Record World : Type := mkWorld {
  w : ResponseWriter;
  reqBody : Body;
  trace : list Event
}.

(** ** The monad of handler code: state, [return] and running out of fuel *)

Inductive Outcome (A : Type) : Type :=
  | Normal (a : A)
  | Returned
  | Diverged.
Arguments Normal {A} a.
Arguments Returned {A}.
Arguments Diverged {A}.

Definition M (A : Type) : Type := World -> Outcome A * World.

Definition ret {A : Type} (a : A) : M A := fun σ => (Normal a, σ).

Definition bind {A B : Type} (c : M A) (k : A -> M B) : M B :=
  fun σ =>
    match c σ with
    | (Normal a, σ') => k a σ'
    | (Returned, σ') => (Returned, σ')
    | (Diverged, σ') => (Diverged, σ')
    end.

(** The statement [return] of a function without results. *)
Definition return_ {A : Type} : M A := fun σ => (Returned, σ).

Definition skip : M unit := ret tt.

(** stdpp's notations for monads: [x ← c; k], ['(x, y) ← c; k], [c;; k]. *)
#[export] Instance M_ret : MRet M := @ret.
#[export] Instance M_bind : MBind M := fun A B k c => bind c k.

Definition on_w (f : ResponseWriter -> ResponseWriter) : M unit :=
  fun σ => (Normal tt, {| w := f (w σ); reqBody := reqBody σ; trace := trace σ |}).

Definition emit (ev : Event) : M unit :=
  fun σ => (Normal tt, {| w := w σ; reqBody := reqBody σ; trace := trace σ ++ [ev] |}).

Definition w_Header_Set (key value : string) : M unit := on_w (rw_Header_Set key value).
Definition w_WriteHeader (code : Z) : M unit := on_w (rw_WriteHeader code).
Definition w_Write (p : bytes) : M unit := on_w (rw_Write p).

Definition log_Println (err : error) : M unit := emit (EvLog (Error err)).

(** [http.Error(w, msg, code)]. *)
Definition http_Error (msg : string) (code : Z) : M unit :=
  w_Header_Set "Content-Type" "text/plain; charset=utf-8";;
  w_Header_Set "X-Content-Type-Options" "nosniff";;
  w_WriteHeader code;;
  w_Write (bytes_of_string (msg +:+ String "010" EmptyString)).

(** [ioutil.ReadAll(io.LimitReader(r.Body, limit))] on the body of the
    request; the body is left where the read stopped. *)
Definition ReadAll_LimitReader_Body (limit : Z) : M (bytes * option error) :=
  fun σ =>
    match ioutil_ReadAll (io_LimitReader (reqBody σ) limit) with
    | None => (Diverged, σ)
    | Some (data, err, l) =>
        (Normal (data, err),
         {| w := w σ; reqBody := lr_R l; trace := trace σ |})
    end.

(** ** The functions of [function.go] *)

Section Program.

Context (E : Env).

(** [func jsonResponse(w http.ResponseWriter, c int, d interface{})];
    every call in the program passes a [serverResponse].  The branch for a
    failed [json.Marshal] has no [return]: the function goes on. *)
Definition jsonResponse (c : Z) (d : serverResponse) : M unit :=
  let '(dj, err) := json_Marshal_serverResponse E d in
  match err with
  | Some _ => http_Error "Error creating JSON response" StatusInternalServerError
  | None => skip
  end;;
  w_Header_Set "Content-Type" "application/json";;
  w_WriteHeader c;;
  w_Write dj.

(** [func checkRecaptchaToken(remoteip, response string) (recaptchaResponse, error)].
    The deferred [resp.Body.Close()] shows in nothing the handler does. *)
Definition checkRecaptchaToken (remoteip response : string)
    : M (recaptchaResponse * option error) :=
  let r := zero_recaptchaResponse in
  let form : Values :=
    <["secret" := [recaptchaPrivateKey E]]>
      (<["remoteip" := [remoteip]]> (<["response" := [response]]> ∅)) in
  emit (EvPostForm recaptchaServerName form);;
  let '(resp, err) := http_PostForm E recaptchaServerName form in
  match err with
  | Some err => ret (r, Some (fmt_Errorf "Post to recaptcha error " err))
  | None =>
      match ioutil_ReadAll (resp_Body resp) with
      | None => fun σ => (Diverged, σ)
      | Some (body, err, _) =>
          match err with
          | Some err =>
              ret (r, Some (fmt_Errorf "Read error: could not read body " err))
          | None =>
              let '(r, err) := json_Unmarshal_recaptchaResponse E body in
              match err with
              | Some err =>
                  ret (r, Some (fmt_Errorf "Read error: got invalid JSON " err))
              | None => ret (r, None)
              end
          end
      end
  end.

(** [func addRecord(id string, payload []byte) error].  The timeout of 50
    seconds on the context reaches the function as an error of [io.Copy]
    or of [Close]. *)
Definition addRecord (id : string) (payload : bytes) : M (option error) :=
  emit (EvNewWriter id);;
  emit (EvCopy id payload);;
  match io_Copy E id payload with
  | Some err => ret (Some err)
  | None =>
      emit (EvClose id);;
      match wc_Close E id payload with
      | Some err => ret (Some err)
      | None => ret None
      end
  end.

(** [func CORSEnabledFunctionAuth(w http.ResponseWriter, r *http.Request)]. *)
Definition CORSEnabledFunctionAuth (r : Request) : M unit :=
  (* Set CORS headers for the preflight request *)
  (if String.eqb (Method r) MethodOptions then
     w_Header_Set "Access-Control-Allow-Credentials" "true";;
     w_Header_Set "Access-Control-Allow-Headers" "Authorization";;
     w_Header_Set "Access-Control-Allow-Methods" "POST";;
     w_Header_Set "Access-Control-Allow-Origin" "https://screencovid.com";;
     w_Header_Set "Access-Control-Max-Age" "3600";;
     w_WriteHeader StatusNoContent;;
     return_
   else skip);;
  (* Set CORS headers for the main request. *)
  w_Header_Set "Access-Control-Allow-Credentials" "true";;
  w_Header_Set "Access-Control-Allow-Origin" "https://screencovid.com";;
  (* Parse request from body *)
  '(data, err) ← ReadAll_LimitReader_Body LIMIT;
  match err with
  | Some err =>
      log_Println err;;
      jsonResponse StatusBadRequest
        {| Status := "error"; Message := "must supply a payload" |};;
      return_
  | None => skip
  end;;
  emit (EvUnmarshal data);;
  let '(t, err) := json_Unmarshal_serverRequest E data in
  match err with
  | Some err =>
      log_Println err;;
      jsonResponse StatusBadRequest
        {| Status := "error"; Message := "error parsing input" |};;
      return_
  | None => skip
  end;;
  (* Check reCaptcha score *)
  (if negb (String.eqb (recaptchaPrivateKey E) "")
      && (String.eqb (recaptchaBypass E) ""
          || negb (String.eqb (ReCaptchaToken t) (recaptchaBypass E)))
   then
     '(recaptchaResponse, err) ←
       checkRecaptchaToken (ReCaptchaToken t)
         (Header_Get "X-Forwarded-For" (Header r));
     match err with
     | Some err =>
         jsonResponse StatusInternalServerError
           {| Status := "error"; Message := Error err |};;
         return_
     | None => skip
     end;;
     if negb (Success recaptchaResponse) then
       jsonResponse StatusBadRequest
         {| Status := "error"; Message := "recaptcha thinks your are a bot" |}
     else skip
   else skip);;
  (* Add to database *)
  let '(answers, _) := json_Marshal_RawMessage E (Answers t) in
  let currentTime := time_Format (time_Now E) "2006/01/02/15/04/" in
  err ← addRecord (currentTime +:+ ID t) answers;
  match err with
  | Some err =>
      jsonResponse StatusInternalServerError
        {| Status := "error";
           Message := "failed to upload data " +:+ Error err |};;
      return_
  | None => skip
  end;;
  (* Answer *)
  jsonResponse StatusOK {| Status := "ok"; Message := "thank you" |}.

(** One request served: the handler run on a fresh response writer. *)
Definition initialWorld (r : Request) : World :=
  {| w := newResponseWriter; reqBody := Body_ r; trace := [] |}.

Definition run (r : Request) : Outcome unit * World :=
  CORSEnabledFunctionAuth r (initialWorld r).

(** The world the handler leaves. *)
Definition serve (r : Request) : World := (run r).2.

(** The handler came back (by [return] or by reaching its end). *)
Definition terminates (r : Request) : bool :=
  match (run r).1 with
  | Diverged => false
  | _ => true
  end.

End Program.

(** ** What a trace shows *)

(** The forms posted to the verification service. *)
Definition verificationCalls (tr : list Event) : list (string * Values) :=
  omap (fun ev => match ev with EvPostForm u f => Some (u, f) | _ => None end) tr.

(** The storage writes attempted: object name and payload. *)
Definition storageWrites (tr : list Event) : list (string * bytes) :=
  omap (fun ev => match ev with EvCopy id p => Some (id, p) | _ => None end) tr.

(** The inputs handed to the decoder of submissions. *)
Definition decoderInputs (tr : list Event) : list bytes :=
  omap (fun ev => match ev with EvUnmarshal d => Some d | _ => None end) tr.

(** The error [ioutil.ReadAll] reports for a body read to its end. *)
Definition readError (b : Body) : option error :=
  match ending b with
  | Some e => if is_EOF e then None else Some e
  | None => None
  end.

(** The verification branch of the handler is taken. *)
Definition verificationRequired (E : Env) (token : string) : bool :=
  negb (String.eqb (recaptchaPrivateKey E) "")
  && (String.eqb (recaptchaBypass E) ""
      || negb (String.eqb token (recaptchaBypass E))).

(** The five headers of the preflight answer. *)
Definition preflightHeaders : Values :=
  <["Access-Control-Max-Age" := ["3600"]]>
  (<["Access-Control-Allow-Origin" := ["https://screencovid.com"]]>
  (<["Access-Control-Allow-Methods" := ["POST"]]>
  (<["Access-Control-Allow-Headers" := ["Authorization"]]>
  (<["Access-Control-Allow-Credentials" := ["true"]]> ∅)))).

(** ** The parts of a request and of its answer *)

(** What the handler reads of the body, the error of that read, and the
    body it leaves behind. *)
Definition requestData (r : Request) : bytes :=
  take (Z.to_nat LIMIT) (pending (Body_ r)).

Definition requestReadError (r : Request) : option error :=
  if Z.of_nat (length (pending (Body_ r))) <? LIMIT
  then readError (Body_ r) else None.

Definition requestRest (r : Request) : Body :=
  {| pending := drop (Z.to_nat LIMIT) (pending (Body_ r));
     ending := ending (Body_ r) |}.

(** [json.Marshal] does not fail on a [serverResponse]. *)
Definition marshalTotal (E : Env) : Prop :=
  forall d, (json_Marshal_serverResponse E d).2 = None.

(** The bytes of a response envelope. *)
Definition envelope (E : Env) (status message : string) : bytes :=
  (json_Marshal_serverResponse E {| Status := status; Message := message |}).1.

(** What [jsonResponse] does to the response writer when [json.Marshal]
    succeeds with [dj]. *)
Definition respond (c : Z) (dj : bytes) (w0 : ResponseWriter) : ResponseWriter :=
  rw_Write dj
    (rw_WriteHeader c (rw_Header_Set "Content-Type" "application/json" w0)).

(** The response writer once the CORS headers of the main request are set. *)
Definition mainWriter : ResponseWriter :=
  rw_Header_Set "Access-Control-Allow-Origin" "https://screencovid.com"
    (rw_Header_Set "Access-Control-Allow-Credentials" "true" newResponseWriter).

(** The form [checkRecaptchaToken] posts, and what it returns. *)
Definition verificationForm (E : Env) (remoteip response : string) : Values :=
  <["secret" := [recaptchaPrivateKey E]]>
    (<["remoteip" := [remoteip]]> (<["response" := [response]]> ∅)).

(** What the verification returns for a posted form. *)
Definition verificationResult (E : Env) (form : Values)
    : recaptchaResponse * option error :=
  let '(resp, err) := http_PostForm E recaptchaServerName form in
  match err with
  | Some err =>
      (zero_recaptchaResponse, Some (fmt_Errorf "Post to recaptcha error " err))
  | None =>
      match readError (resp_Body resp) with
      | Some err =>
          (zero_recaptchaResponse,
           Some (fmt_Errorf "Read error: could not read body " err))
      | None =>
          let '(r, err) :=
            json_Unmarshal_recaptchaResponse E (pending (resp_Body resp)) in
          match err with
          | Some err => (r, Some (fmt_Errorf "Read error: got invalid JSON " err))
          | None => (r, None)
          end
      end
  end.

Definition verification (E : Env) (remoteip response : string)
    : recaptchaResponse * option error :=
  verificationResult E (verificationForm E remoteip response).

(** The error [addRecord] returns for an object name and a payload. *)
Definition storeError (E : Env) (id : string) (payload : bytes) : option error :=
  match io_Copy E id payload with
  | Some err => Some err
  | None => wc_Close E id payload
  end.

(** The events of one [addRecord]. *)
Definition storeEvents (E : Env) (id : string) (payload : bytes) : list Event :=
  [EvNewWriter id; EvCopy id payload]
  ++ match io_Copy E id payload with
     | Some _ => []
     | None => [EvClose id]
     end.

(** Object name and payload the handler stores for a submission. *)
Definition storageKey (E : Env) (t : serverRequest) : string :=
  time_Format (time_Now E) "2006/01/02/15/04/" +:+ ID t.

Definition storagePayload (E : Env) (t : serverRequest) : bytes :=
  (json_Marshal_RawMessage E (Answers t)).1.

(** What [http.Error] and [jsonResponse] do to the response writer. *)
Definition httpErrorWriter (msg : string) (code : Z) (w0 : ResponseWriter)
    : ResponseWriter :=
  rw_Write (bytes_of_string (msg +:+ String "010" EmptyString))
    (rw_WriteHeader code
       (rw_Header_Set "X-Content-Type-Options" "nosniff"
          (rw_Header_Set "Content-Type" "text/plain; charset=utf-8" w0))).

Definition jsonWriter (E : Env) (c : Z) (d : serverResponse) (w0 : ResponseWriter)
    : ResponseWriter :=
  let '(dj, err) := json_Marshal_serverResponse E d in
  rw_Write dj
    (rw_WriteHeader c
       (rw_Header_Set "Content-Type" "application/json"
          match err with
          | Some _ =>
              httpErrorWriter "Error creating JSON response"
                StatusInternalServerError w0
          | None => w0
          end)).

Definition botMessage : string := "recaptcha thinks your are a bot".

(** The response writer after the verification step: untouched when the
    result has the success flag. *)
Definition verifiedWriter (E : Env) (rr : recaptchaResponse) : ResponseWriter :=
  if Success rr then mainWriter
  else jsonWriter E StatusBadRequest
         {| Status := "error"; Message := botMessage |} mainWriter.

(** The response writer after the storage step, from the writer before it. *)
Definition storedWriter (E : Env) (t : serverRequest) (w0 : ResponseWriter)
    : ResponseWriter :=
  match storeError E (storageKey E t) (storagePayload E t) with
  | Some err =>
      jsonWriter E StatusInternalServerError
        {| Status := "error";
           Message := "failed to upload data " +:+ Error err |} w0
  | None =>
      jsonWriter E StatusOK {| Status := "ok"; Message := "thank you" |} w0
  end.

(** The response writer of a preflight answer. *)
Definition preflightWriter : ResponseWriter :=
  rw_WriteHeader StatusNoContent
    (rw_Header_Set "Access-Control-Max-Age" "3600"
    (rw_Header_Set "Access-Control-Allow-Origin" "https://screencovid.com"
    (rw_Header_Set "Access-Control-Allow-Methods" "POST"
    (rw_Header_Set "Access-Control-Allow-Headers" "Authorization"
    (rw_Header_Set "Access-Control-Allow-Credentials" "true"
       newResponseWriter))))).

(** The second argument the handler gives the verification. *)
Definition forwardedFor (r : Request) : string :=
  Header_Get "X-Forwarded-For" (Header r).

(** The six ways through the handler, each with the outcome and the world
    it ends in. *)
Inductive Path (E : Env) (r : Request) : Outcome unit * World -> Prop :=
  | path_preflight :
      Method r = MethodOptions ->
      Path E r
        (Returned, {| w := preflightWriter; reqBody := Body_ r; trace := [] |})
  | path_read_error (e : error) :
      Method r <> MethodOptions ->
      requestReadError r = Some e ->
      Path E r
        (Returned,
         {| w := jsonWriter E StatusBadRequest
                   {| Status := "error"; Message := "must supply a payload" |}
                   mainWriter;
            reqBody := requestRest r;
            trace := [EvLog (Error e)] |})
  | path_decode_error (t : serverRequest) (e : error) :
      Method r <> MethodOptions ->
      requestReadError r = None ->
      json_Unmarshal_serverRequest E (requestData r) = (t, Some e) ->
      Path E r
        (Returned,
         {| w := jsonWriter E StatusBadRequest
                   {| Status := "error"; Message := "error parsing input" |}
                   mainWriter;
            reqBody := requestRest r;
            trace := [EvUnmarshal (requestData r); EvLog (Error e)] |})
  | path_skipped (t : serverRequest) :
      Method r <> MethodOptions ->
      requestReadError r = None ->
      json_Unmarshal_serverRequest E (requestData r) = (t, None) ->
      verificationRequired E (ReCaptchaToken t) = false ->
      Path E r
        (match storeError E (storageKey E t) (storagePayload E t) with
         | Some _ => Returned
         | None => Normal tt
         end,
         {| w := storedWriter E t mainWriter;
            reqBody := requestRest r;
            trace := [EvUnmarshal (requestData r)]
                     ++ storeEvents E (storageKey E t) (storagePayload E t) |})
  | path_verification_error (t : serverRequest) (rr : recaptchaResponse) (e : error) :
      Method r <> MethodOptions ->
      requestReadError r = None ->
      json_Unmarshal_serverRequest E (requestData r) = (t, None) ->
      verificationRequired E (ReCaptchaToken t) = true ->
      verification E (ReCaptchaToken t) (forwardedFor r) = (rr, Some e) ->
      Path E r
        (Returned,
         {| w := jsonWriter E StatusInternalServerError
                   {| Status := "error"; Message := Error e |} mainWriter;
            reqBody := requestRest r;
            trace := [EvUnmarshal (requestData r);
                      EvPostForm recaptchaServerName
                        (verificationForm E (ReCaptchaToken t) (forwardedFor r))] |})
  | path_verified (t : serverRequest) (rr : recaptchaResponse) :
      Method r <> MethodOptions ->
      requestReadError r = None ->
      json_Unmarshal_serverRequest E (requestData r) = (t, None) ->
      verificationRequired E (ReCaptchaToken t) = true ->
      verification E (ReCaptchaToken t) (forwardedFor r) = (rr, None) ->
      Path E r
        (match storeError E (storageKey E t) (storagePayload E t) with
         | Some _ => Returned
         | None => Normal tt
         end,
         {| w := storedWriter E t (verifiedWriter E rr);
            reqBody := requestRest r;
            trace := [EvUnmarshal (requestData r);
                      EvPostForm recaptchaServerName
                        (verificationForm E (ReCaptchaToken t) (forwardedFor r))]
                     ++ storeEvents E (storageKey E t) (storagePayload E t) |}).

(** ** A small concrete environment, to run the handler on *)

Module Demo.

(** A decoder that accepts the documents starting with an opening brace
    and reads the same submission from each. *)
Definition unmarshalRequest (data : bytes) : serverRequest * option error :=
  match data with
  | Byte.x7b :: _ =>
      ({| ReCaptchaToken := "tok"; ID := "abc"; Answers := data |}, None)
  | _ =>
      ({| ReCaptchaToken := ""; ID := ""; Answers := [] |},
       Some (errorString "invalid character"))
  end.

(** The verification service answers the one byte [1] for a human. *)
Definition unmarshalRecaptcha (body : bytes) : recaptchaResponse * option error :=
  ({| Success := match body with Byte.x31 :: _ => true | _ => false end;
      Score := PrimFloat.zero; Action := "";
      ChallengeTS := mkTime 0 0; Hostname := ""; ErrorCodes := [] |}, None).

Definition marshalResponse (d : serverResponse) : bytes * option error :=
  (bytes_of_string (Status d +:+ ": " +:+ Message d), None).

Definition env (key bypass : string) (human : bool)
    (storeErr : option error) (offset : Z) : Env :=
  {| recaptchaPrivateKey := key;
     recaptchaBypass := bypass;
     json_Unmarshal_serverRequest := unmarshalRequest;
     json_Unmarshal_recaptchaResponse := unmarshalRecaptcha;
     json_Marshal_serverResponse := marshalResponse;
     json_Marshal_RawMessage := fun a => (a, None);
     http_PostForm := fun _ _ =>
       ({| resp_Body := mkBody (bytes_of_string (if human then "1" else "0")) None |},
        None);
     time_Now := mkTime 1586779200 offset;
     io_Copy := fun _ _ => storeErr;
     wc_Close := fun _ _ => None |}.

Definition request (method : string) (content : string) : Request :=
  {| Method := method;
     Header := <["X-Forwarded-For" := ["203.0.113.7"]]> ∅;
     Body_ := mkBody (bytes_of_string content) None |}.

(** A body of 40000 bytes, more than [LIMIT]. *)
Definition longRequest : Request :=
  {| Method := "POST"; Header := ∅;
     Body_ := mkBody (replicate (Z.to_nat 40000) Byte.x7b) None |}.

End Demo.

(** ** [init]: the configuration read when the process starts *)

(** [os.Getenv]: the value of the variable, empty when it is not set. *)
Definition os_Getenv (environ : gmap string string) (key : string) : string :=
  default "" (environ !! key).

(** The package variables [init] leaves set ([bucket] by the name of the
    bucket it was made for). *)
Record Config : Type := mkConfig {
  cfg_bucketName : string;
  cfg_recaptchaPrivateKey : string;
  cfg_recaptchaBypass : string
}.

(** What [init] does that is visible outside it. *)
Inductive StartEvent : Type :=
  | EvStderr (text : string)    (* fmt.Fprintf(os.Stderr, ...) *)
  | EvNewClient                 (* storage.NewClient(ctx) *)
  | EvLogFatal (line : string)  (* the line log.Fatalf prints *)
  | EvExit (code : Z).          (* os.Exit(code), by the program or by log.Fatalf *)

(** [func init()], given the environment variables of the process and
    the error [storage.NewClient] would return: the configuration, or
    [None] when the process exits, and the events in order. *)
Definition init (environ : gmap string string) (newClientErr : option error)
    : option Config * list StartEvent :=
  (* Get variables *)
  let bucketName := os_Getenv environ "BUCKET_NAME" in
  if String.eqb bucketName "" then
    (None,
     [EvStderr ("BUCKET_NAME environment variable must be set."
                +:+ String "010" EmptyString);
      EvExit 1])
  else
    let recaptchaPrivateKey := os_Getenv environ "RECAPTCHA_PRIVATE_KEY" in
    let recaptchaBypass := os_Getenv environ "RECAPTCHA_BYPASS" in
    (* Creates a client. *)
    match newClientErr with
    | Some err =>
        (None,
         [EvNewClient;
          EvLogFatal ("Failed to create client: " +:+ Error err);
          EvExit 1])
    | None =>
        (* Creates a Bucket instance. *)
        (Some {| cfg_bucketName := bucketName;
                 cfg_recaptchaPrivateKey := recaptchaPrivateKey;
                 cfg_recaptchaBypass := recaptchaBypass |},
         [EvNewClient])
    end.

(** The handler runs in an environment with the keys [init] read. *)
Definition configuredBy (cfg : Config) (E : Env) : Prop :=
  recaptchaPrivateKey E = cfg_recaptchaPrivateKey cfg /\
  recaptchaBypass E = cfg_recaptchaBypass cfg.

(** [w1] continues the response [w0] has started: same status, same
    headers sent, and the bytes of [w0] first. *)
Definition continues (w0 w1 : ResponseWriter) : Prop :=
  wroteHeader w1 = true /\
  status w1 = status w0 /\
  sentHeader w1 = sentHeader w0 /\
  exists more, written w1 = written w0 ++ more.

(** The lines the handler logs. *)
Definition logLines (tr : list Event) : list string :=
  omap (fun ev => match ev with EvLog line => Some line | _ => None end) tr.

(** ** More concrete cases *)

Module Cases.

(** An environment in which [json.Marshal] fails. *)
Definition noMarshal : Env :=
  {| recaptchaPrivateKey := "";
     recaptchaBypass := "";
     json_Unmarshal_serverRequest := Demo.unmarshalRequest;
     json_Unmarshal_recaptchaResponse := Demo.unmarshalRecaptcha;
     json_Marshal_serverResponse := fun _ =>
       ([], Some (errorString "json: unsupported value"));
     json_Marshal_RawMessage := fun a => (a, None);
     http_PostForm := fun _ _ => ({| resp_Body := mkBody [] None |}, None);
     time_Now := mkTime 1586779200 0;
     io_Copy := fun _ _ => None;
     wc_Close := fun _ _ => None |}.

(** An environment in which the verification service cannot be reached. *)
Definition noNetwork : Env :=
  {| recaptchaPrivateKey := "key";
     recaptchaBypass := "";
     json_Unmarshal_serverRequest := Demo.unmarshalRequest;
     json_Unmarshal_recaptchaResponse := Demo.unmarshalRecaptcha;
     json_Marshal_serverResponse := Demo.marshalResponse;
     json_Marshal_RawMessage := fun a => (a, None);
     http_PostForm := fun _ _ =>
       ({| resp_Body := mkBody [] None |}, Some (errorString "dial tcp: timeout"));
     time_Now := mkTime 1586779200 0;
     io_Copy := fun _ _ => None;
     wc_Close := fun _ _ => None |}.

(** A request whose body breaks off after three bytes. *)
Definition brokenRequest : Request :=
  {| Method := "POST"; Header := ∅;
     Body_ := mkBody (bytes_of_string "{ab")
                (Some (errorString "unexpected EOF")) |}.

(** A world in which a response with status 400 has been started. *)
Definition started : World :=
  {| w := rw_Write (bytes_of_string "first")
            (rw_WriteHeader StatusBadRequest newResponseWriter);
     reqBody := mkBody [] None; trace := [] |}.

Definition fresh : World :=
  {| w := newResponseWriter; reqBody := mkBody [] None; trace := [] |}.

(** The variables of a deployment with no reCAPTCHA key. *)
Definition environ : gmap string string := <["BUCKET_NAME" := "answers"]> ∅.

End Cases.

(** * Properties *)

(** ** The model at work *)

Example format_noon_utc :
  time_Format (mkTime 1586779200 0) "2006/01/02/15/04/" = "2020/04/13/12/00/".
Proof. reflexivity. Qed.

Example format_leap_day :
  time_Format (mkTime 951827696 0) "2006/01/02/15/04/" = "2000/02/29/12/34/".
Proof. reflexivity. Qed.

Example format_before_epoch :
  time_Format (mkTime (-1) 0) "2006/01/02/15/04/" = "1969/12/31/23/59/".
Proof. reflexivity. Qed.

Example format_zero_time :
  time_Format (ChallengeTS zero_recaptchaResponse) "2006/01/02/15/04/"
    = "0001/01/01/00/00/".
Proof. reflexivity. Qed.

Example read_all_limited :
  ioutil_ReadAll (io_LimitReader (mkBody (bytes_of_string "hello world") None) 5)
    = Some (bytes_of_string "hello", None,
            mkLimitedReader (mkBody (bytes_of_string " world") None) 0).
Proof. reflexivity. Qed.

Example read_all_short_body_with_error :
  ioutil_ReadAll
    (io_LimitReader
       (mkBody (bytes_of_string "hel") (Some (errorString "unexpected EOF"))) 5)
    = Some (bytes_of_string "hel", Some (errorString "unexpected EOF"),
            mkLimitedReader
              (mkBody [] (Some (errorString "unexpected EOF"))) 2).
Proof. reflexivity. Qed.

Example second_WriteHeader_is_ignored :
  status (rw_WriteHeader StatusInternalServerError
            (rw_WriteHeader StatusBadRequest newResponseWriter))
    = StatusBadRequest.
Proof. reflexivity. Qed.

(** ** Reading *)

Lemma ReadAll_loop_Body (fuel : nat) (b : Body) (acc : bytes) :
  (length (pending b) < fuel)%nat ->
  ReadAll_loop fuel b acc =
    Some (acc ++ pending b, readError b, {| pending := []; ending := ending b |}).
Proof.
  revert b acc. induction fuel as [|fuel IH]; intros [p e] acc Hlt; [lia|].
  destruct p as [|x p];
    cbn [ReadAll_loop Read Body_Reader Body_Read pending ending].
  - unfold readError; cbn [ending]. rewrite app_nil_r.
    destruct e as [[|msg]|]; reflexivity.
  - cbn [pending] in Hlt. rewrite IH.
    + cbn [pending ending]. unfold readError; cbn [ending].
      rewrite <- app_assoc, take_drop. reflexivity.
    + cbn [pending]. rewrite length_drop. cbn [length] in *.
      unfold MinRead. lia.
Qed.

Lemma ioutil_ReadAll_Body (b : Body) :
  ioutil_ReadAll b =
    Some (pending b, readError b, {| pending := []; ending := ending b |}).
Proof.
  unfold ioutil_ReadAll. rewrite ReadAll_loop_Body; [reflexivity|].
  cbn. lia.
Qed.

(** [ReadAll] over a limited body: the first [N] bytes, an error only if
    the body ended before the budget did, and the body left at byte [N]. *)
Lemma ReadAll_loop_LimitedReader (fuel : nat) (b : Body) (N : Z) (acc : bytes) :
  (length (pending b) < fuel)%nat ->
  exists N',
    ReadAll_loop fuel (mkLimitedReader b N) acc =
      Some (acc ++ take (Z.to_nat N) (pending b),
            (if Z.of_nat (length (pending b)) <? N then readError b else None),
            mkLimitedReader
              {| pending := drop (Z.to_nat N) (pending b); ending := ending b |} N').
Proof.
  revert b N acc. induction fuel as [|fuel IH]; intros [l e] N acc Hlt; [lia|].
  cbn [pending ending] in *.
  cbn [ReadAll_loop Read LimitedReader_Reader]. unfold LimitedReader_Read.
  cbn [lr_N lr_R]. destruct (Z.leb_spec N 0) as [HN|HN].
  - exists N. replace (Z.to_nat N) with O by lia.
    rewrite take_0, drop_0, app_nil_r. cbn [is_EOF].
    destruct (Z.ltb_spec (Z.of_nat (length l)) N); [lia|reflexivity].
  - set (n' := if N <? Z.of_nat MinRead then Z.to_nat N else MinRead).
    assert (Hn' : (1 <= n' <= Z.to_nat N)%nat).
    { subst n'. unfold MinRead.
      destruct (Z.ltb_spec N (Z.of_nat 512)); lia. }
    destruct l as [|x l]; cbn [Read Body_Reader Body_Read pending ending].
    + exists (N - Z.of_nat (length (@nil Byte.byte))).
      rewrite take_nil, drop_nil, app_nil_r. cbn [length].
      destruct (Z.ltb_spec (Z.of_nat 0) N); [|lia].
      unfold readError; cbn [ending]. destruct e as [[|msg]|]; reflexivity.
    + set (xl := x :: l) in *.
      destruct (IH {| pending := drop n' xl; ending := e |}
                   (N - Z.of_nat (length (take n' xl)))
                   (acc ++ take n' xl)) as [N' ->].
      { cbn [pending]. rewrite length_drop. subst xl. cbn [length] in *. lia. }
      exists N'. cbn [pending ending]. unfold readError; cbn [ending].
      rewrite length_take, length_drop.
      destruct (le_lt_dec n' (length xl)) as [Hle|Hgt].
      * replace (Z.to_nat (N - Z.of_nat (n' `min` length xl)))
          with (Z.to_nat N - n')%nat by lia.
        rewrite <- app_assoc, take_take_drop, drop_drop.
        replace (n' + (Z.to_nat N - n'))%nat with (Z.to_nat N) by lia.
        destruct (Z.ltb_spec (Z.of_nat (length xl - n')) (N - Z.of_nat (n' `min` length xl)));
          destruct (Z.ltb_spec (Z.of_nat (length xl)) N); try lia; reflexivity.
      * rewrite (take_ge xl n') by lia. rewrite (drop_ge xl n') by lia.
        rewrite take_nil, drop_nil, app_nil_r.
        rewrite (take_ge xl (Z.to_nat N)) by lia.
        rewrite (drop_ge xl (Z.to_nat N)) by lia.
        destruct (Z.ltb_spec (Z.of_nat (length xl - n')) (N - Z.of_nat (n' `min` length xl)));
          destruct (Z.ltb_spec (Z.of_nat (length xl)) N); try lia; reflexivity.
Qed.

Lemma ioutil_ReadAll_LimitReader (b : Body) (N : Z) :
  exists N',
    ioutil_ReadAll (io_LimitReader b N) =
      Some (take (Z.to_nat N) (pending b),
            (if Z.of_nat (length (pending b)) <? N then readError b else None),
            mkLimitedReader
              {| pending := drop (Z.to_nat N) (pending b); ending := ending b |} N').
Proof.
  unfold ioutil_ReadAll, io_LimitReader.
  destruct (ReadAll_loop_LimitedReader
              (S (remaining (mkLimitedReader b N))) b N []) as [N' HN'].
  { cbn. lia. }
  exists N'. exact HN'.
Qed.

Lemma ReadAll_LimitReader_Body_eq (r : Request) (w0 : ResponseWriter) (tr : list Event) :
  ReadAll_LimitReader_Body LIMIT {| w := w0; reqBody := Body_ r; trace := tr |} =
    (Normal (requestData r, requestReadError r),
     {| w := w0; reqBody := requestRest r; trace := tr |}).
Proof.
  unfold ReadAll_LimitReader_Body. cbn [reqBody w trace].
  destruct (ioutil_ReadAll_LimitReader (Body_ r) LIMIT) as [N' HN]. rewrite HN.
  unfold requestData, requestReadError, requestRest. reflexivity.
Qed.

(** ** The functions of the program, one equation each *)

Ltac unfold_monad :=
  repeat (progress unfold mbind, M_bind, bind, mret, M_ret, skip, ret, return_,
            w_Header_Set, w_WriteHeader, w_Write, log_Println, on_w, emit).

Ltac reduce_state :=
  cbn [fst snd w reqBody trace initialWorld Body_ negb].

Lemma jsonResponse_eq (E : Env) (c : Z) (d : serverResponse) (σ : World) :
  jsonResponse E c d σ =
    (Normal tt,
     {| w := jsonWriter E c d (w σ); reqBody := reqBody σ; trace := trace σ |}).
Proof.
  unfold jsonResponse, jsonWriter, http_Error, httpErrorWriter.
  destruct (json_Marshal_serverResponse E d) as [dj [err|]];
    unfold_monad; reduce_state; reflexivity.
Qed.

Lemma checkRecaptchaToken_eq (E : Env) (remoteip response : string) (σ : World) :
  checkRecaptchaToken E remoteip response σ =
    (Normal (verification E remoteip response),
     {| w := w σ; reqBody := reqBody σ;
        trace := trace σ
                 ++ [EvPostForm recaptchaServerName
                       (verificationForm E remoteip response)] |}).
Proof.
  unfold checkRecaptchaToken, verification, verificationResult.
  fold (verificationForm E remoteip response).
  destruct (http_PostForm E _ _) as [resp [err|]]; [reflexivity|].
  rewrite ioutil_ReadAll_Body.
  destruct (readError (resp_Body resp)) as [err|]; [reflexivity|].
  destruct (json_Unmarshal_recaptchaResponse E _) as [rr [err|]]; reflexivity.
Qed.

Lemma addRecord_eq (E : Env) (id : string) (payload : bytes) (σ : World) :
  addRecord E id payload σ =
    (Normal (storeError E id payload),
     {| w := w σ; reqBody := reqBody σ;
        trace := trace σ ++ storeEvents E id payload |}).
Proof.
  unfold addRecord, storeError, storeEvents. unfold_monad. reduce_state.
  destruct (io_Copy E id payload) as [err|].
  - reduce_state. rewrite <- app_assoc. reflexivity.
  - reduce_state. rewrite <- !app_assoc.
    destruct (wc_Close E id payload); reflexivity.
Qed.

Ltac go :=
  repeat (unfold_monad; reduce_state;
          try rewrite ReadAll_LimitReader_Body_eq;
          try rewrite jsonResponse_eq;
          try rewrite checkRecaptchaToken_eq;
          try rewrite addRecord_eq).

(** ** The paths through the handler *)

(** Every run of the handler is one of the six paths. *)
Lemma run_Path (E : Env) (r : Request) : Path E r (run E r).
Proof.
  unfold run, CORSEnabledFunctionAuth.
  destruct (String.eqb_spec (Method r) MethodOptions) as [Hm|Hm].
  { go. apply path_preflight, Hm. }
  go.
  destruct (requestReadError r) as [e|] eqn:Hread.
  { go. apply path_read_error; assumption. }
  go.
  destruct (json_Unmarshal_serverRequest E (requestData r)) as [t [e|]] eqn:Hdec.
  { go. apply path_decode_error with (t := t); assumption. }
  go.
  pose proof (path_skipped E r t Hm Hread Hdec) as Hskip.
  pose proof (path_verification_error E r t) as Herr.
  pose proof (path_verified E r t) as Hver.
  unfold verificationRequired, forwardedFor, storedWriter, verifiedWriter,
    storagePayload, botMessage in *.
  change (time_Format (time_Now E) "2006/01/02/15/04/" +:+ ID t)
    with (storageKey E t).
  destruct (negb _ && _).
  - go.
    destruct (verification E _ _) as [rr [e|]] eqn:Hv.
    { go. apply (Herr rr e Hm Hread Hdec eq_refl eq_refl). }
    specialize (Hver rr Hm Hread Hdec eq_refl eq_refl).
    destruct (json_Marshal_RawMessage E (Answers t)) as [answers merr].
    go. cbn [fst] in Hver.
    destruct (Success rr); go;
      destruct (storeError E (storageKey E t) answers); go; exact Hver.
  - go. specialize (Hskip eq_refl).
    destruct (json_Marshal_RawMessage E (Answers t)) as [answers merr].
    go. cbn [fst] in Hskip.
    destruct (storeError E (storageKey E t) answers); go; exact Hskip.
Qed.

Lemma run_terminates (E : Env) (r : Request) : terminates E r = true.
Proof.
  unfold terminates. destruct (run_Path E r); cbn [fst]; try reflexivity.
  all: destruct (storeError E _ _); reflexivity.
Qed.

(** ** The response writer *)

Lemma jsonWriter_total (E : Env) (c : Z) (d : serverResponse) (w0 : ResponseWriter) :
  marshalTotal E ->
  jsonWriter E c d w0 = respond c (envelope E (Status d) (Message d)) w0.
Proof.
  intros Hm. specialize (Hm d). unfold jsonWriter, envelope, respond.
  destruct d as [st msg]. cbn [Status Message].
  destruct (json_Marshal_serverResponse E _) as [dj err].
  cbn [fst snd] in *. subst err. reflexivity.
Qed.

(** The first response sets the status; its bytes follow what was written. *)
Lemma respond_fresh (c : Z) (dj : bytes) (w0 : ResponseWriter) :
  wroteHeader w0 = false ->
  bodyAllowedForStatus c = true ->
  respond c dj w0 =
    {| header := Header_Set "Content-Type" "application/json" (header w0);
       wroteHeader := true; status := c;
       sentHeader := Header_Set "Content-Type" "application/json" (header w0);
       written := written w0 ++ dj |}.
Proof.
  intros Hw Hb. unfold respond, rw_Write, rw_WriteHeader, rw_Header_Set.
  cbn [wroteHeader status header sentHeader written].
  rewrite Hw. cbn [wroteHeader status header sentHeader written].
  rewrite Hb. reflexivity.
Qed.

(** A later response cannot change the status: its bytes are appended. *)
Lemma respond_sent (c : Z) (dj : bytes) (w0 : ResponseWriter) :
  wroteHeader w0 = true ->
  bodyAllowedForStatus (status w0) = true ->
  respond c dj w0 =
    {| header := Header_Set "Content-Type" "application/json" (header w0);
       wroteHeader := true; status := status w0;
       sentHeader := sentHeader w0;
       written := written w0 ++ dj |}.
Proof.
  intros Hw Hb. unfold respond, rw_Write, rw_WriteHeader, rw_Header_Set.
  cbn [wroteHeader status header sentHeader written].
  rewrite Hw. cbn [wroteHeader status header sentHeader written].
  rewrite Hb. reflexivity.
Qed.

Lemma respond_mainWriter (c : Z) (dj : bytes) :
  bodyAllowedForStatus c = true ->
  status (respond c dj mainWriter) = c /\
  written (respond c dj mainWriter) = dj /\
  wroteHeader (respond c dj mainWriter) = true.
Proof.
  intros Hb. rewrite respond_fresh by (reflexivity || assumption).
  cbn [status written wroteHeader]. auto.
Qed.

(** ** Traces *)

Lemma verificationCalls_app (tr1 tr2 : list Event) :
  verificationCalls (tr1 ++ tr2) = verificationCalls tr1 ++ verificationCalls tr2.
Proof. apply omap_app. Qed.

Lemma storageWrites_app (tr1 tr2 : list Event) :
  storageWrites (tr1 ++ tr2) = storageWrites tr1 ++ storageWrites tr2.
Proof. apply omap_app. Qed.

Lemma decoderInputs_app (tr1 tr2 : list Event) :
  decoderInputs (tr1 ++ tr2) = decoderInputs tr1 ++ decoderInputs tr2.
Proof. apply omap_app. Qed.

Lemma storeEvents_projections (E : Env) (id : string) (payload : bytes) :
  verificationCalls (storeEvents E id payload) = [] /\
  storageWrites (storeEvents E id payload) = [(id, payload)] /\
  decoderInputs (storeEvents E id payload) = [].
Proof.
  unfold storeEvents. destruct (io_Copy E id payload); repeat split; reflexivity.
Qed.

Ltac project_trace :=
  rewrite ?verificationCalls_app, ?storageWrites_app, ?decoderInputs_app;
  repeat match goal with
    | |- context [verificationCalls (storeEvents ?E ?i ?p)] =>
        rewrite (proj1 (storeEvents_projections E i p))
    | |- context [storageWrites (storeEvents ?E ?i ?p)] =>
        rewrite (proj1 (proj2 (storeEvents_projections E i p)))
    | |- context [decoderInputs (storeEvents ?E ?i ?p)] =>
        rewrite (proj2 (proj2 (storeEvents_projections E i p)))
    end;
  cbn [verificationCalls storageWrites decoderInputs omap list_omap app].

(** The condition of the handler's verification branch, as a proposition. *)
Lemma verificationRequired_true (E : Env) (token : string) :
  verificationRequired E token = true <->
  recaptchaPrivateKey E <> "" /\
  ~ (recaptchaBypass E <> "" /\ token = recaptchaBypass E).
Proof.
  unfold verificationRequired.
  destruct (String.eqb_spec (recaptchaPrivateKey E) "");
    destruct (String.eqb_spec (recaptchaBypass E) "");
    destruct (String.eqb_spec token (recaptchaBypass E));
    cbn; intuition congruence.
Qed.

(** Take a run of the handler apart along its path. *)
Ltac by_path E r :=
  unfold serve; generalize (run_Path E r); generalize (run E r);
  let o := fresh "o" in let HP := fresh "HP" in
  intros o HP; destruct HP; cbn [fst snd w reqBody trace].

(** ** The claims *)

(** C1.  When the verification the handler called returns a result whose
    success flag is false, the response has status 400 and starts with the
    envelope of the fixed message, and the handler goes on all the same:
    the private key is configured, the token is not a configured bypass,
    and the storage write of the submission is attempted after the
    verification call. *)
Theorem failed_verification_still_stores
    (E : Env) (r : Request) (url : string) (form : Values) (rr : recaptchaResponse) :
  marshalTotal E ->
  In (url, form) (verificationCalls (trace (serve E r))) ->
  verificationResult E form = (rr, None) ->
  Success rr = false ->
  status (w (serve E r)) = StatusBadRequest /\
  (exists rest,
     written (w (serve E r)) =
       envelope E "error" "recaptcha thinks your are a bot" ++ rest) /\
  recaptchaPrivateKey E <> "" /\
  exists t,
    json_Unmarshal_serverRequest E (requestData r) = (t, None) /\
    (recaptchaBypass E = "" \/ ReCaptchaToken t <> recaptchaBypass E) /\
    storageWrites (trace (serve E r)) = [(storageKey E t, storagePayload E t)] /\
    trace (serve E r) =
      [EvUnmarshal (requestData r); EvPostForm url form]
      ++ storeEvents E (storageKey E t) (storagePayload E t).
Proof.
  intros Hm. by_path E r; project_trace; intros Hin Hres Hflag;
    try (destruct Hin; fail).
  - destruct Hin as [Heq|[]]. inversion Heq; subst url form.
    unfold verification in *. congruence.
  - destruct Hin as [Heq|[]]. inversion Heq; subst url form.
    unfold verification in *.
    assert (rr0 = rr) by congruence. subst rr0.
    match goal with
    | Hreq : verificationRequired _ _ = true |- _ =>
        apply verificationRequired_true in Hreq as [Hkey Hbypass]
    end.
    unfold storedWriter, verifiedWriter, botMessage. rewrite Hflag.
    assert (Hw : forall c dj,
      bodyAllowedForStatus c = true ->
      status (respond c dj (respond StatusBadRequest
                (envelope E "error" "recaptcha thinks your are a bot") mainWriter))
        = StatusBadRequest /\
      exists rest,
        written (respond c dj (respond StatusBadRequest
                (envelope E "error" "recaptcha thinks your are a bot") mainWriter))
          = envelope E "error" "recaptcha thinks your are a bot" ++ rest).
    { intros c dj Hc.
      rewrite (respond_fresh StatusBadRequest) by reflexivity.
      rewrite respond_sent by reflexivity.
      cbn [status written]. split; [reflexivity|]. exists dj. reflexivity. }
    repeat split.
    + destruct (storeError E _ _); rewrite !jsonWriter_total by assumption;
        apply Hw; reflexivity.
    + destruct (storeError E _ _); rewrite !jsonWriter_total by assumption;
        apply Hw; reflexivity.
    + exact Hkey.
    + exists t. repeat split; try assumption.
      destruct (String.eqb_spec (recaptchaBypass E) ""); [left; assumption|].
      right. intros Heq'. apply Hbypass. split; assumption.
Qed.

Lemma failed_verification_still_stores_witness :
  let E := Demo.env "key" "" false None 0 in
  let r := Demo.request "POST" "{}" in
  status (w (serve E r)) = StatusBadRequest /\
  storageWrites (trace (serve E r)) =
    [("2020/04/13/12/00/abc", bytes_of_string "{}")].
Proof.
  intros E r.
  destruct (failed_verification_still_stores E r recaptchaServerName
              (verificationForm E "tok" "203.0.113.7")
              (Demo.unmarshalRecaptcha (bytes_of_string "0")).1)
    as (Hstatus & _ & _ & t & Hdec & _ & Hstore & _).
  - intros d. reflexivity.
  - vm_compute. left. reflexivity.
  - reflexivity.
  - reflexivity.
  - split; [exact Hstatus|].
    rewrite Hstore. vm_compute in Hdec. inversion Hdec. reflexivity.
Defined.

(** C2.  The verification client posts its first parameter under the form
    key [remoteip] and its second under [response]; and whenever the
    handler calls it, the first argument is the token of the decoded
    submission and the second the value of the [X-Forwarded-For] header:
    the token goes out as [remoteip], the header value as [response]. *)
Theorem token_sent_as_remoteip (E : Env) :
  (forall (remoteip response : string) (σ : World),
     let form := verificationForm E remoteip response in
     verificationCalls (trace (checkRecaptchaToken E remoteip response σ).2) =
       verificationCalls (trace σ) ++ [(recaptchaServerName, form)] /\
     form !! "remoteip" = Some [remoteip] /\
     form !! "response" = Some [response] /\
     form !! "secret" = Some [recaptchaPrivateKey E]) /\
  (forall (r : Request) (url : string) (form : Values),
     In (url, form) (verificationCalls (trace (serve E r))) ->
     url = recaptchaServerName /\
     exists t,
       json_Unmarshal_serverRequest E (requestData r) = (t, None) /\
       form = verificationForm E (ReCaptchaToken t)
                (Header_Get "X-Forwarded-For" (Header r)) /\
       form !! "remoteip" = Some [ReCaptchaToken t] /\
       form !! "response" = Some [Header_Get "X-Forwarded-For" (Header r)]).
Proof.
  assert (Hform : forall a b,
    verificationForm E a b !! "remoteip" = Some [a] /\
    verificationForm E a b !! "response" = Some [b] /\
    verificationForm E a b !! "secret" = Some [recaptchaPrivateKey E]).
  { intros a b. unfold verificationForm.
    rewrite (lookup_insert_ne _ "secret" "remoteip") by discriminate.
    rewrite !(lookup_insert_ne _ _ "response") by discriminate.
    rewrite !lookup_insert_eq. auto. }
  split.
  - intros remoteip response σ form. split; [|apply Hform].
    rewrite checkRecaptchaToken_eq. cbn [snd trace].
    rewrite verificationCalls_app. reflexivity.
  - intros r url form.
    by_path E r; project_trace; intros Hin; try (destruct Hin; fail).
    + destruct Hin as [Heq|[]]. inversion Heq; subst url form.
      split; [reflexivity|]. exists t. unfold forwardedFor.
      split; [assumption|]. split; [reflexivity|].
      split; apply Hform.
    + destruct Hin as [Heq|[]]. inversion Heq; subst url form.
      split; [reflexivity|]. exists t. unfold forwardedFor.
      split; [assumption|]. split; [reflexivity|].
      split; apply Hform.
Qed.

Lemma token_sent_as_remoteip_witness :
  let E := Demo.env "key" "" true None 0 in
  let r := Demo.request "POST" "{}" in
  let form := verificationForm E "tok" "203.0.113.7" in
  form !! "remoteip" = Some ["tok"] /\
  form !! "response" = Some ["203.0.113.7"].
Proof.
  intros E r form.
  destruct (proj2 (token_sent_as_remoteip E) r recaptchaServerName form)
    as (_ & t & Hdec & _ & Hip & Hresp).
  - vm_compute. left. reflexivity.
  - vm_compute in Hdec. inversion Hdec; subst t. split; assumption.
Defined.

(** C3, as stated, fails: a request that is not OPTIONS, with a private key
    configured and no bypass, whose body does not decode.  The handler
    answers 400 before the verification step: no verification call is made
    and nothing is stored. *)
Lemma verification_skipped_on_malformed_body :
  let E := Demo.env "key" "" true None 0 in
  let r := Demo.request "POST" "oops" in
  Method r <> MethodOptions /\
  (recaptchaPrivateKey E <> "" /\
   ~ (recaptchaBypass E <> "" /\
      ReCaptchaToken (json_Unmarshal_serverRequest E (requestData r)).1
        = recaptchaBypass E)) /\
  verificationCalls (trace (serve E r)) = [] /\
  storageWrites (trace (serve E r)) = [] /\
  status (w (serve E r)) = StatusBadRequest.
Proof.
  cbv zeta. split; [discriminate|]. split.
  - split; [discriminate|]. intros [Hb _]. apply Hb. reflexivity.
  - vm_compute. auto.
Qed.

(** C3, amended.  For every request that is not OPTIONS and whose body is
    read and decodes to a submission, the verification client is called
    if and only if a private key is configured and it is not the case that
    a bypass value is configured and equal to the submitted token; the call
    is then the only one.  When it is skipped the handler goes from the
    decoding straight to the storage step, with nothing written to the
    response before it. *)
Theorem verification_iff_configured (E : Env) (r : Request) (t : serverRequest) :
  Method r <> MethodOptions ->
  requestReadError r = None ->
  json_Unmarshal_serverRequest E (requestData r) = (t, None) ->
  let configured :=
    recaptchaPrivateKey E <> "" /\
    ~ (recaptchaBypass E <> "" /\ ReCaptchaToken t = recaptchaBypass E) in
  (verificationCalls (trace (serve E r)) <> [] <-> configured) /\
  (configured ->
   verificationCalls (trace (serve E r)) =
     [(recaptchaServerName,
       verificationForm E (ReCaptchaToken t)
         (Header_Get "X-Forwarded-For" (Header r)))]) /\
  (~ configured ->
   trace (serve E r) =
     [EvUnmarshal (requestData r)]
     ++ storeEvents E (storageKey E t) (storagePayload E t) /\
   w (serve E r) = storedWriter E t mainWriter).
Proof.
  intros Hm Hread Hdec configured. subst configured.
  rewrite <- verificationRequired_true.
  by_path E r; project_trace; try congruence.
  - (* skipped *)
    assert (t0 = t) by congruence. subst t0.
    match goal with H : verificationRequired _ _ = false |- _ => rewrite H end.
    repeat split; try congruence; auto.
  - (* the verification fails with an error *)
    assert (t0 = t) by congruence. subst t0.
    match goal with H : verificationRequired _ _ = true |- _ => rewrite H end.
    unfold forwardedFor. repeat split; try congruence; auto.
  - (* the verification returns a result *)
    assert (t0 = t) by congruence. subst t0.
    match goal with H : verificationRequired _ _ = true |- _ => rewrite H end.
    unfold forwardedFor. repeat split; try congruence; auto.
Qed.

Lemma verification_iff_configured_witness :
  let E := Demo.env "key" "tok" true None 0 in
  let r := Demo.request "POST" "{}" in
  verificationCalls (trace (serve E r)) = [] /\
  storageWrites (trace (serve E r)) =
    [("2020/04/13/12/00/abc", bytes_of_string "{}")].
Proof.
  intros E r.
  destruct (verification_iff_configured E r
              {| ReCaptchaToken := "tok"; ID := "abc";
                 Answers := bytes_of_string "{}" |})
    as (Hiff & _ & Hskip).
  - discriminate.
  - reflexivity.
  - reflexivity.
  - assert (Hnot : ~ (recaptchaPrivateKey E <> "" /\
               ~ (recaptchaBypass E <> "" /\ "tok" = recaptchaBypass E))).
    { intros [_ Hn]. apply Hn. split; [discriminate|reflexivity]. }
    destruct (Hskip Hnot) as [Htrace _]. rewrite Htrace.
    vm_compute. auto.
Defined.

(** ** The size cap *)

Lemma requestData_length (r : Request) :
  Z.of_nat (length (requestData r)) <= LIMIT.
Proof. unfold requestData. rewrite length_take. unfold LIMIT. lia. Qed.

Lemma requestData_rest (r : Request) :
  pending (Body_ r) = requestData r ++ pending (requestRest r).
Proof.
  unfold requestData, requestRest. cbn [pending].
  symmetry. apply take_drop.
Qed.

(** C4.  The limit is 32768.  Whatever the request, the handler consumes at
    most that many bytes of its body, and the decoder is never given more.
    A body longer than the limit is not rejected: the decoder is given
    exactly its first 32768 bytes. *)
Theorem body_read_is_capped (E : Env) (r : Request) :
  LIMIT = 32768 /\
  (exists consumed,
     pending (Body_ r) = consumed ++ pending (reqBody (serve E r)) /\
     Z.of_nat (length consumed) <= LIMIT) /\
  (forall data,
     In data (decoderInputs (trace (serve E r))) ->
     Z.of_nat (length data) <= LIMIT) /\
  (Method r <> MethodOptions ->
   LIMIT < Z.of_nat (length (pending (Body_ r))) ->
   decoderInputs (trace (serve E r)) =
     [take (Z.to_nat LIMIT) (pending (Body_ r))] /\
   Z.of_nat (length (take (Z.to_nat LIMIT) (pending (Body_ r)))) = LIMIT).
Proof.
  split; [reflexivity|].
  assert (Hcut : exists consumed,
            pending (Body_ r) = consumed ++ pending (requestRest r) /\
            Z.of_nat (length consumed) <= LIMIT).
  { exists (requestData r). split;
      [apply requestData_rest | apply requestData_length]. }
  assert (Hone : forall data,
            In data [requestData r] -> Z.of_nat (length data) <= LIMIT).
  { intros data [<-|[]]. apply requestData_length. }
  assert (Hlong : LIMIT < Z.of_nat (length (pending (Body_ r))) ->
            requestReadError r = None /\
            Z.of_nat (length (take (Z.to_nat LIMIT) (pending (Body_ r)))) = LIMIT).
  { intros Hlt. unfold requestReadError. split.
    - destruct (Z.ltb_spec (Z.of_nat (length (pending (Body_ r)))) LIMIT);
        [lia|reflexivity].
    - rewrite length_take. unfold LIMIT in *. lia. }
  by_path E r; project_trace.
  - split; [|split].
    + exists []. split; [reflexivity|]. cbn [length]. unfold LIMIT. lia.
    + intros data [].
    + intros Hm; contradiction.
  - split; [exact Hcut|]. split; [intros data []|].
    intros _ Hlt. destruct (Hlong Hlt). congruence.
  - split; [exact Hcut|]. split; [exact Hone|].
    intros _ Hlt. split; [reflexivity | apply (Hlong Hlt)].
  - split; [exact Hcut|]. split; [exact Hone|].
    intros _ Hlt. split; [reflexivity | apply (Hlong Hlt)].
  - split; [exact Hcut|]. split; [exact Hone|].
    intros _ Hlt. split; [reflexivity | apply (Hlong Hlt)].
  - split; [exact Hcut|]. split; [exact Hone|].
    intros _ Hlt. split; [reflexivity | apply (Hlong Hlt)].
Qed.

Lemma body_read_is_capped_witness :
  let E := Demo.env "" "" true None 0 in
  decoderInputs (trace (serve E Demo.longRequest)) =
    [take (Z.to_nat LIMIT) (pending (Body_ Demo.longRequest))] /\
  Z.of_nat (length (take (Z.to_nat LIMIT) (pending (Body_ Demo.longRequest))))
    = LIMIT.
Proof.
  intros E.
  apply (proj2 (proj2 (proj2 (body_read_is_capped E Demo.longRequest)))).
  - discriminate.
  - unfold Demo.longRequest. cbn [Body_ pending].
    rewrite length_replicate. unfold LIMIT. lia.
Defined.

(** ** Errors *)

(** C5.  A request that is not OPTIONS and whose body, as read, does not
    decode is answered with status 400 and the envelope of the fixed
    message [error parsing input], whatever the verification settings;
    the handler returns there: no verification call, no storage write. *)
Theorem malformed_body_is_rejected
    (E : Env) (r : Request) (t : serverRequest) (e : error) :
  Method r <> MethodOptions ->
  marshalTotal E ->
  requestReadError r = None ->
  json_Unmarshal_serverRequest E (requestData r) = (t, Some e) ->
  status (w (serve E r)) = StatusBadRequest /\
  written (w (serve E r)) = envelope E "error" "error parsing input" /\
  verificationCalls (trace (serve E r)) = [] /\
  storageWrites (trace (serve E r)) = [] /\
  (run E r).1 = Returned.
Proof.
  intros Hm Hmarshal Hread Hdec.
  by_path E r; project_trace; try congruence.
  rewrite jsonWriter_total by assumption. cbn [Status Message].
  destruct (respond_mainWriter StatusBadRequest
              (envelope E "error" "error parsing input") eq_refl)
    as (Hs & Hw & _).
  auto.
Qed.

Lemma malformed_body_is_rejected_witness :
  let E := Demo.env "key" "" true None 0 in
  let r := Demo.request "POST" "oops" in
  status (w (serve E r)) = StatusBadRequest /\
  written (w (serve E r)) = envelope E "error" "error parsing input" /\
  verificationCalls (trace (serve E r)) = [] /\
  storageWrites (trace (serve E r)) = [] /\
  (run E r).1 = Returned.
Proof.
  intros E r.
  apply (malformed_body_is_rejected E r
           {| ReCaptchaToken := ""; ID := ""; Answers := [] |}
           (errorString "invalid character")).
  - discriminate.
  - intros d. reflexivity.
  - reflexivity.
  - reflexivity.
Defined.

(** A storage failure on a response that has not been started: status
    500, the envelope carries the text of the error, and nothing follows
    it.  This is every storage failure except the one after a failed
    verification. *)
Lemma storage_failure_on_fresh_response
    (E : Env) (r : Request) (t : serverRequest) (e : error) :
  marshalTotal E ->
  storeError E (storageKey E t) (storagePayload E t) = Some e ->
  status (storedWriter E t mainWriter) = StatusInternalServerError /\
  written (storedWriter E t mainWriter) =
    envelope E "error" ("failed to upload data " +:+ Error e).
Proof.
  intros Hmarshal Hstore. unfold storedWriter. rewrite Hstore.
  rewrite jsonWriter_total by assumption. cbn [Status Message].
  destruct (respond_mainWriter StatusInternalServerError
              (envelope E "error" ("failed to upload data " +:+ Error e)) eq_refl)
    as (Hs & Hw & _).
  auto.
Qed.

(** C6, where the code departs from it.  When the storage write fails
    after a verification that returned a false success flag, the status
    has already gone out as 400: the response keeps status 400, not 500,
    and its body is the envelope of the verification message followed by
    the envelope that carries the text of the storage error. *)
Theorem storage_failure_after_failed_verification
    (E : Env) (r : Request) (url : string) (form : Values)
    (rr : recaptchaResponse) (key : string) (payload : bytes) (e : error) :
  marshalTotal E ->
  In (url, form) (verificationCalls (trace (serve E r))) ->
  verificationResult E form = (rr, None) ->
  Success rr = false ->
  In (key, payload) (storageWrites (trace (serve E r))) ->
  storeError E key payload = Some e ->
  status (w (serve E r)) = StatusBadRequest /\
  status (w (serve E r)) <> StatusInternalServerError /\
  written (w (serve E r)) =
    envelope E "error" "recaptcha thinks your are a bot"
    ++ envelope E "error" ("failed to upload data " +:+ Error e).
Proof.
  intros Hmarshal.
  by_path E r; project_trace; intros Hin Hres Hflag Hkey Hstore;
    try (destruct Hin; fail).
  - destruct Hkey.
  - destruct Hin as [Heq|[]]. inversion Heq; subst url form.
    destruct Hkey as [Heq'|[]]. inversion Heq'; subst key payload.
    unfold verification in *.
    assert (rr0 = rr) by congruence. subst rr0.
    unfold storedWriter, verifiedWriter, botMessage.
    rewrite Hflag, Hstore. rewrite !jsonWriter_total by assumption.
    cbn [Status Message].
    rewrite (respond_fresh StatusBadRequest) by reflexivity.
    rewrite respond_sent by reflexivity.
    cbn [status written mainWriter rw_Header_Set newResponseWriter app].
    repeat split. discriminate.
Qed.

Lemma storage_failure_after_failed_verification_witness :
  let E := Demo.env "key" "" false (Some (errorString "timeout")) 0 in
  let r := Demo.request "POST" "{}" in
  status (w (serve E r)) = StatusBadRequest /\
  status (w (serve E r)) <> StatusInternalServerError /\
  written (w (serve E r)) =
    envelope E "error" "recaptcha thinks your are a bot"
    ++ envelope E "error" "failed to upload data timeout".
Proof.
  intros E r.
  apply (storage_failure_after_failed_verification E r recaptchaServerName
           (verificationForm E "tok" "203.0.113.7")
           (Demo.unmarshalRecaptcha (bytes_of_string "0")).1
           "2020/04/13/12/00/abc" (bytes_of_string "{}")
           (errorString "timeout")).
  - intros d. reflexivity.
  - vm_compute. left. reflexivity.
  - reflexivity.
  - reflexivity.
  - vm_compute. left. reflexivity.
  - reflexivity.
Defined.

(** C7.  A submission that decodes, handled with no private key
    configured: no verification call, exactly one storage write attempt,
    and when that write succeeds the response is status 200 with the
    envelope of status [ok] and message [thank you], sent as JSON. *)
Theorem unverified_submission_is_stored_once
    (E : Env) (r : Request) (t : serverRequest) :
  Method r <> MethodOptions ->
  requestReadError r = None ->
  json_Unmarshal_serverRequest E (requestData r) = (t, None) ->
  recaptchaPrivateKey E = "" ->
  verificationCalls (trace (serve E r)) = [] /\
  storageWrites (trace (serve E r)) = [(storageKey E t, storagePayload E t)] /\
  length (storageWrites (trace (serve E r))) = 1%nat /\
  (marshalTotal E ->
   storeError E (storageKey E t) (storagePayload E t) = None ->
   status (w (serve E r)) = StatusOK /\
   written (w (serve E r)) = envelope E "ok" "thank you" /\
   sentHeader (w (serve E r)) !! "Content-Type" = Some ["application/json"] /\
   (run E r).1 = Normal tt).
Proof.
  intros Hm Hread Hdec Hkey.
  assert (Hreq : forall token, verificationRequired E token = false).
  { intros token. unfold verificationRequired. rewrite Hkey. reflexivity. }
  by_path E r; project_trace; try congruence.
  assert (t0 = t) by congruence. subst t0.
  split; [reflexivity|]. split; [reflexivity|]. split; [reflexivity|].
  intros Hmarshal Hstore. unfold storedWriter. rewrite Hstore.
  rewrite jsonWriter_total by assumption. cbn [Status Message].
  rewrite respond_fresh by reflexivity. cbn [status written sentHeader].
  repeat split.
Qed.

Lemma unverified_submission_is_stored_once_witness :
  let E := Demo.env "" "" true None 0 in
  let r := Demo.request "POST" "{}" in
  storageWrites (trace (serve E r)) =
    [("2020/04/13/12/00/abc", bytes_of_string "{}")] /\
  status (w (serve E r)) = StatusOK /\
  written (w (serve E r)) = envelope E "ok" "thank you".
Proof.
  intros E r.
  destruct (unverified_submission_is_stored_once E r
              {| ReCaptchaToken := "tok"; ID := "abc";
                 Answers := bytes_of_string "{}" |})
    as (_ & Hstore & _ & Hok).
  - discriminate.
  - reflexivity.
  - reflexivity.
  - reflexivity.
  - destruct Hok as (Hs & Hw & _).
    + intros d. reflexivity.
    + reflexivity.
    + split; [exact Hstore|]. split; assumption.
Defined.

(** ** The storage key *)

Lemma time_Format_layout (t : time_Time) :
  time_Format t "2006/01/02/15/04/" =
    appendInt (time_Year t) 4 +:+ "/" +:+ appendInt (time_Month t) 2 +:+ "/"
    +:+ appendInt (time_Day t) 2 +:+ "/" +:+ appendInt (time_Hour t) 2 +:+ "/"
    +:+ appendInt (time_Minute t) 2 +:+ "/".
Proof. reflexivity. Qed.

Lemma time_UTC_of_zero_offset (t : time_Time) :
  zoneOffset t = 0 -> time_UTC t = t.
Proof. destruct t as [s o]. cbn. intros ->. reflexivity. Qed.

(** C8, as stated, fails: with the local zone two hours east of UTC, a
    submission at 12:00 UTC is stored under the hour 14, not 12. *)
Lemma storage_key_is_not_utc :
  let E := Demo.env "" "" true None 7200 in
  let r := Demo.request "POST" "{}" in
  storageWrites (trace (serve E r)) =
    [("2020/04/13/14/00/abc", bytes_of_string "{}")] /\
  time_Format (time_UTC (time_Now E)) "2006/01/02/15/04/" +:+ "abc"
    = "2020/04/13/12/00/abc" /\
  "2020/04/13/14/00/abc" <> "2020/04/13/12/00/abc".
Proof.
  cbv zeta. split; [vm_compute; reflexivity|].
  split; [vm_compute; reflexivity|discriminate].
Qed.

(** C8, amended.  Every storage key is the time [time.Now()] returns, which
    is the current time in the local zone of the process (UTC where that
    zone is UTC), formatted as year/month/day/hour/minute/ with four digits
    for the year and two for the others, followed by the identifier of the
    submission; the payload stored is [json.Marshal] of the raw answers.
    So every key ends with the identifier. *)
Theorem storage_key_is_time_and_identifier
    (E : Env) (r : Request) (key : string) (payload : bytes) :
  In (key, payload) (storageWrites (trace (serve E r))) ->
  let now := time_Now E in
  exists t,
    json_Unmarshal_serverRequest E (requestData r) = (t, None) /\
    key = time_Format now "2006/01/02/15/04/" +:+ ID t /\
    key = (appendInt (time_Year now) 4 +:+ "/"
           +:+ appendInt (time_Month now) 2 +:+ "/"
           +:+ appendInt (time_Day now) 2 +:+ "/"
           +:+ appendInt (time_Hour now) 2 +:+ "/"
           +:+ appendInt (time_Minute now) 2 +:+ "/") +:+ ID t /\
    payload = (json_Marshal_RawMessage E (Answers t)).1 /\
    (exists prefix, key = prefix +:+ ID t) /\
    (zoneOffset now = 0 ->
     key = time_Format (time_UTC now) "2006/01/02/15/04/" +:+ ID t).
Proof.
  by_path E r; project_trace; intros Hin; try (destruct Hin; fail).
  all: destruct Hin as [Heq|[]]; inversion Heq; subst key payload.
  all: exists t; split; [assumption|].
  all: unfold storageKey, storagePayload.
  all: rewrite <- time_Format_layout.
  all: split; [reflexivity|]; split; [reflexivity|]; split; [reflexivity|].
  all: split; [eexists; reflexivity|].
  all: intros Hz; rewrite time_UTC_of_zero_offset by assumption; reflexivity.
Qed.

Lemma storage_key_is_time_and_identifier_witness :
  let E := Demo.env "" "" true None 7200 in
  let r := Demo.request "POST" "{}" in
  exists t,
    json_Unmarshal_serverRequest E (requestData r) = (t, None) /\
    "2020/04/13/14/00/abc" = time_Format (time_Now E) "2006/01/02/15/04/" +:+ ID t /\
    exists prefix, "2020/04/13/14/00/abc" = prefix +:+ ID t.
Proof.
  intros E r.
  destruct (storage_key_is_time_and_identifier E r
              "2020/04/13/14/00/abc" (bytes_of_string "{}"))
    as (t & Hdec & Hkey & _ & _ & Hsuffix & _).
  - vm_compute. left. reflexivity.
  - exists t. auto.
Defined.

(** ** Preflight and other methods *)

Lemma size_preflightHeaders : size preflightHeaders = 5%nat.
Proof. vm_compute. reflexivity. Qed.

(** C9, as stated, fails on the number of headers: the answer to a
    preflight request carries five CORS headers, not four. *)
Lemma preflight_sends_five_headers :
  let E := Demo.env "key" "" true None 0 in
  let r := Demo.request "OPTIONS" "{}" in
  Method r = MethodOptions /\
  size (sentHeader (w (serve E r))) = 5%nat /\
  size (sentHeader (w (serve E r))) <> 4%nat /\
  map fst (map_to_list (sentHeader (w (serve E r)))) =
    ["Access-Control-Max-Age"; "Access-Control-Allow-Origin";
     "Access-Control-Allow-Credentials"; "Access-Control-Allow-Methods";
     "Access-Control-Allow-Headers"].
Proof.
  cbv zeta. split; [reflexivity|].
  split; [vm_compute; reflexivity|].
  split; [vm_compute; discriminate|vm_compute; reflexivity].
Qed.

(** C9, amended.  A request whose method is OPTIONS is answered with
    status 204, the five preflight CORS headers (Allow-Credentials,
    Allow-Headers, Allow-Methods, Allow-Origin, Max-Age) and an empty body,
    whatever the configuration and the content of the request; the handler
    returns at once: the body is not read, nothing is decoded, and no
    verification call or storage write is made. *)
Theorem preflight_is_answered_at_once (E : Env) (r : Request) :
  Method r = MethodOptions ->
  status (w (serve E r)) = StatusNoContent /\
  sentHeader (w (serve E r)) = preflightHeaders /\
  size (sentHeader (w (serve E r))) = 5%nat /\
  written (w (serve E r)) = [] /\
  reqBody (serve E r) = Body_ r /\
  trace (serve E r) = [] /\
  (run E r).1 = Returned.
Proof.
  intros Hm. by_path E r; try contradiction.
  change (sentHeader preflightWriter) with preflightHeaders.
  rewrite size_preflightHeaders. repeat split.
Qed.

Lemma preflight_is_answered_at_once_witness :
  let E := Demo.env "key" "" true None 0 in
  let r := Demo.request "OPTIONS" "{}" in
  status (w (serve E r)) = StatusNoContent /\
  sentHeader (w (serve E r)) = preflightHeaders /\
  size (sentHeader (w (serve E r))) = 5%nat /\
  written (w (serve E r)) = [] /\
  reqBody (serve E r) = Body_ r /\
  trace (serve E r) = [] /\
  (run E r).1 = Returned.
Proof.
  intros E r. apply (preflight_is_answered_at_once E r). reflexivity.
Defined.

(** C10.  The handler tests the method for OPTIONS only.  A request with
    any other method runs exactly as the same request sent with POST: same
    outcome, same response, same body consumed, same calls. *)
Theorem other_methods_run_as_post (E : Env) (r : Request) :
  Method r <> MethodOptions ->
  run E r = run E {| Method := "POST"; Header := Header r; Body_ := Body_ r |}.
Proof.
  intros Hm. apply String.eqb_neq in Hm.
  unfold run, CORSEnabledFunctionAuth, initialWorld.
  cbn [Method Header Body_]. rewrite Hm.
  change (String.eqb "POST" MethodOptions) with false.
  reflexivity.
Qed.

Lemma other_methods_run_as_post_witness :
  let E := Demo.env "key" "" true None 0 in
  run E (Demo.request "DELETE" "{}") = run E (Demo.request "POST" "{}") /\
  storageWrites (trace (serve E (Demo.request "DELETE" "{}"))) =
    [("2020/04/13/12/00/abc", bytes_of_string "{}")].
Proof.
  intros E. split.
  - apply (other_methods_run_as_post E (Demo.request "DELETE" "{}")).
    discriminate.
  - vm_compute. reflexivity.
Defined.

(** * Further properties of the program *)

(** ** [jsonResponse] *)

(** The operations of the response writer, one at a time. *)
Lemma rw_WriteHeader_started (c : Z) (w0 : ResponseWriter) :
  wroteHeader w0 = true -> rw_WriteHeader c w0 = w0.
Proof. intros Hw. unfold rw_WriteHeader. rewrite Hw. reflexivity. Qed.

Lemma rw_WriteHeader_fresh (c : Z) (w0 : ResponseWriter) :
  wroteHeader w0 = false ->
  rw_WriteHeader c w0 =
    {| header := header w0; wroteHeader := true; status := c;
       sentHeader := header w0; written := written w0 |}.
Proof. intros Hw. unfold rw_WriteHeader. rewrite Hw. reflexivity. Qed.

Lemma continues_refl (w0 : ResponseWriter) :
  wroteHeader w0 = true -> continues w0 w0.
Proof.
  intros Hw. repeat split; try assumption. exists []. symmetry. apply app_nil_r.
Qed.

Lemma continues_trans (w0 w1 w2 : ResponseWriter) :
  continues w0 w1 -> continues w1 w2 -> continues w0 w2.
Proof.
  intros (_ & Hs1 & Hh1 & m1 & Hm1) (Hw2 & Hs2 & Hh2 & m2 & Hm2).
  split; [assumption|]. split; [congruence|]. split; [congruence|].
  exists (m1 ++ m2). rewrite Hm2, Hm1, app_assoc. reflexivity.
Qed.

Lemma rw_Header_Set_continues (key value : string) (w0 : ResponseWriter) :
  wroteHeader w0 = true -> continues w0 (rw_Header_Set key value w0).
Proof.
  intros Hw. unfold rw_Header_Set, continues.
  cbn [wroteHeader status sentHeader written].
  repeat split; try assumption. exists []. symmetry. apply app_nil_r.
Qed.

Lemma rw_WriteHeader_continues (c : Z) (w0 : ResponseWriter) :
  wroteHeader w0 = true -> continues w0 (rw_WriteHeader c w0).
Proof.
  intros Hw. rewrite rw_WriteHeader_started by assumption.
  apply continues_refl, Hw.
Qed.

Lemma rw_Write_continues (p : bytes) (w0 : ResponseWriter) :
  wroteHeader w0 = true -> continues w0 (rw_Write p w0).
Proof.
  intros Hw. unfold rw_Write. rewrite rw_WriteHeader_started by assumption.
  destruct (bodyAllowedForStatus (status w0)).
  - unfold continues. cbn [wroteHeader status sentHeader written].
    repeat split; try assumption. exists p. reflexivity.
  - apply continues_refl, Hw.
Qed.

Lemma continues_step (f : ResponseWriter -> ResponseWriter) (w0 w1 : ResponseWriter) :
  (forall w', wroteHeader w' = true -> continues w' (f w')) ->
  continues w0 w1 -> continues w0 (f w1).
Proof.
  intros Hf H01. apply (continues_trans w0 w1 (f w1) H01).
  apply Hf. exact (proj1 H01).
Qed.

Lemma respond_continues (c : Z) (dj : bytes) (w0 : ResponseWriter) :
  wroteHeader w0 = true -> continues w0 (respond c dj w0).
Proof.
  intros Hw. unfold respond.
  apply (continues_step (rw_Write dj)); [apply rw_Write_continues|].
  apply (continues_step (rw_WriteHeader c)); [apply rw_WriteHeader_continues|].
  apply (continues_step (rw_Header_Set "Content-Type" "application/json"));
    [apply rw_Header_Set_continues|].
  apply continues_refl, Hw.
Qed.

Lemma httpErrorWriter_continues (msg : string) (c : Z) (w0 : ResponseWriter) :
  wroteHeader w0 = true -> continues w0 (httpErrorWriter msg c w0).
Proof.
  intros Hw. unfold httpErrorWriter.
  apply (continues_step (rw_Write _)); [apply rw_Write_continues|].
  apply (continues_step (rw_WriteHeader c)); [apply rw_WriteHeader_continues|].
  apply (continues_step (rw_Header_Set "X-Content-Type-Options" "nosniff"));
    [apply rw_Header_Set_continues|].
  apply (continues_step (rw_Header_Set "Content-Type" "text/plain; charset=utf-8"));
    [apply rw_Header_Set_continues|].
  apply continues_refl, Hw.
Qed.

(** What [jsonResponse] makes of a response writer, by cases. *)
Lemma jsonWriter_respond (E : Env) (c : Z) (d : serverResponse) (w0 : ResponseWriter) :
  jsonWriter E c d w0 =
    respond c (json_Marshal_serverResponse E d).1
      match (json_Marshal_serverResponse E d).2 with
      | Some _ =>
          httpErrorWriter "Error creating JSON response"
            StatusInternalServerError w0
      | None => w0
      end.
Proof.
  unfold jsonWriter, respond.
  destruct (json_Marshal_serverResponse E d) as [dj err]. reflexivity.
Qed.

Lemma jsonWriter_started (E : Env) (c : Z) (d : serverResponse) (w0 : ResponseWriter) :
  wroteHeader w0 = true -> continues w0 (jsonWriter E c d w0).
Proof.
  intros Hw. rewrite jsonWriter_respond.
  apply (continues_step (respond c _)); [apply respond_continues|].
  destruct (json_Marshal_serverResponse E d).2.
  - apply httpErrorWriter_continues, Hw.
  - apply continues_refl, Hw.
Qed.

(** The first response: the status asked for, or 500 when [json.Marshal]
    failed; the headers set before it go out unchanged. *)
Lemma httpErrorWriter_fresh (msg : string) (c : Z) (w0 : ResponseWriter) :
  wroteHeader w0 = false ->
  bodyAllowedForStatus c = true ->
  httpErrorWriter msg c w0 =
    {| header := Header_Set "X-Content-Type-Options" "nosniff"
                   (Header_Set "Content-Type" "text/plain; charset=utf-8" (header w0));
       wroteHeader := true; status := c;
       sentHeader := Header_Set "X-Content-Type-Options" "nosniff"
                       (Header_Set "Content-Type" "text/plain; charset=utf-8"
                          (header w0));
       written := written w0
                  ++ bytes_of_string (msg +:+ String "010" EmptyString) |}.
Proof.
  intros Hw Hb. unfold httpErrorWriter.
  rewrite rw_WriteHeader_fresh by exact Hw.
  unfold rw_Write. rewrite rw_WriteHeader_started by reflexivity.
  cbn [status rw_Header_Set header wroteHeader sentHeader written].
  rewrite Hb. reflexivity.
Qed.

Lemma jsonWriter_fresh (E : Env) (c : Z) (d : serverResponse) (w0 : ResponseWriter) :
  wroteHeader w0 = false ->
  wroteHeader (jsonWriter E c d w0) = true /\
  (status (jsonWriter E c d w0) = c \/
   status (jsonWriter E c d w0) = StatusInternalServerError) /\
  forall k, k <> "Content-Type" -> k <> "X-Content-Type-Options" ->
    sentHeader (jsonWriter E c d w0) !! k = header w0 !! k.
Proof.
  intros Hw. unfold jsonWriter.
  destruct (json_Marshal_serverResponse E d) as [dj [err|]].
  - rewrite httpErrorWriter_fresh by (exact Hw || reflexivity).
    match goal with
    | |- context [rw_Header_Set "Content-Type" "application/json" ?x] =>
        destruct (respond_continues c dj x eq_refl) as (Hw' & Hs & Hh & _)
    end.
    unfold respond in Hw', Hs, Hh. rewrite Hw', Hs, Hh. cbn [status sentHeader].
    split; [reflexivity|]. split; [right; reflexivity|].
    intros k Hk1 Hk2. unfold Header_Set.
    rewrite !lookup_insert_ne by congruence. reflexivity.
  - set (w1 := rw_Header_Set "Content-Type" "application/json" w0).
    assert (Hw1 : wroteHeader w1 = false) by exact Hw.
    rewrite (rw_WriteHeader_fresh c w1 Hw1).
    match goal with |- context [rw_Write dj ?x] =>
      destruct (rw_Write_continues dj x eq_refl) as (Hw' & Hs & Hh & _)
    end.
    rewrite Hw', Hs, Hh. cbn [status sentHeader].
    split; [reflexivity|]. split; [left; reflexivity|].
    intros k Hk1 Hk2. subst w1. cbn [rw_Header_Set header]. unfold Header_Set.
    rewrite !lookup_insert_ne by congruence. reflexivity.
Qed.

(** X1.  Once a response has been started, [jsonResponse] cannot change
    it: the status and the headers that went out stay, the new bytes (if
    any) follow the ones already written, and the function comes back
    normally without touching the request body or making a call. *)
Theorem jsonResponse_keeps_started_response
    (E : Env) (c : Z) (d : serverResponse) (σ : World) :
  wroteHeader (w σ) = true ->
  exists σ',
    jsonResponse E c d σ = (Normal tt, σ') /\
    status (w σ') = status (w σ) /\
    sentHeader (w σ') = sentHeader (w σ) /\
    (exists more, written (w σ') = written (w σ) ++ more) /\
    reqBody σ' = reqBody σ /\
    trace σ' = trace σ.
Proof.
  intros Hw. rewrite jsonResponse_eq. eexists. split; [reflexivity|].
  cbn [w reqBody trace].
  destruct (jsonWriter_started E c d (w σ) Hw) as (_ & Hs & Hh & Hmore).
  auto.
Qed.

Lemma jsonResponse_keeps_started_response_witness :
  exists σ',
    jsonResponse (Demo.env "" "" true None 0) StatusOK
      {| Status := "ok"; Message := "thank you" |} Cases.started
      = (Normal tt, σ') /\
    status (w σ') = StatusBadRequest /\
    written (w σ') = bytes_of_string "firstok: thank you".
Proof.
  destruct (jsonResponse_keeps_started_response (Demo.env "" "" true None 0)
              StatusOK {| Status := "ok"; Message := "thank you" |}
              Cases.started eq_refl)
    as (σ' & Hrun & Hs & _ & _ & _ & _).
  exists σ'. split; [exact Hrun|]. split; [exact Hs|].
  vm_compute in Hrun. inversion Hrun. reflexivity.
Defined.

(** X2.  When [json.Marshal] fails on a fresh response, [jsonResponse]
    does not return after [http.Error]: the response goes out with status
    500 whatever code was asked for, as plain text with the [nosniff]
    option, and its body is the line [Error creating JSON response]
    followed by whatever bytes [json.Marshal] returned. *)
Theorem jsonResponse_marshal_failure
    (E : Env) (c : Z) (d : serverResponse) (σ : World) (dj : bytes) (e : error) :
  json_Marshal_serverResponse E d = (dj, Some e) ->
  wroteHeader (w σ) = false ->
  exists σ',
    jsonResponse E c d σ = (Normal tt, σ') /\
    status (w σ') = StatusInternalServerError /\
    sentHeader (w σ') !! "Content-Type" = Some ["text/plain; charset=utf-8"] /\
    sentHeader (w σ') !! "X-Content-Type-Options" = Some ["nosniff"] /\
    written (w σ') =
      written (w σ)
      ++ bytes_of_string
           ("Error creating JSON response" +:+ String "010" EmptyString)
      ++ dj /\
    reqBody σ' = reqBody σ /\
    trace σ' = trace σ.
Proof.
  intros Hm Hw. rewrite jsonResponse_eq. eexists. split; [reflexivity|].
  cbn [w reqBody trace]. unfold jsonWriter. rewrite Hm.
  rewrite httpErrorWriter_fresh by (exact Hw || reflexivity).
  fold (respond c dj). unfold respond.
  match goal with |- context [rw_Header_Set "Content-Type" "application/json" ?x] =>
    set (w1 := rw_Header_Set "Content-Type" "application/json" x)
  end.
  rewrite (rw_WriteHeader_started c w1) by reflexivity.
  unfold rw_Write. rewrite rw_WriteHeader_started by reflexivity.
  subst w1. cbn [rw_Header_Set status header wroteHeader sentHeader written].
  change (bodyAllowedForStatus StatusInternalServerError) with true.
  cbn [status sentHeader written]. unfold Header_Set.
  split; [reflexivity|].
  split; [rewrite lookup_insert_ne by discriminate; apply lookup_insert_eq|].
  split; [apply lookup_insert_eq|].
  split; [rewrite app_assoc; reflexivity|]. split; reflexivity.
Qed.

Lemma jsonResponse_marshal_failure_witness :
  exists σ',
    jsonResponse Cases.noMarshal StatusOK
      {| Status := "ok"; Message := "thank you" |} Cases.fresh
      = (Normal tt, σ') /\
    status (w σ') = StatusInternalServerError.
Proof.
  destruct (jsonResponse_marshal_failure Cases.noMarshal StatusOK
              {| Status := "ok"; Message := "thank you" |} Cases.fresh
              [] (errorString "json: unsupported value") eq_refl eq_refl)
    as (σ' & Hrun & Hs & _).
  exists σ'. split; assumption.
Defined.

(** ** [checkRecaptchaToken] and [addRecord] *)

(** X3.  Whatever the service answers, [checkRecaptchaToken] makes exactly
    one POST, to the fixed verification address, with the three form keys
    [secret] (the configured private key), [remoteip] and [response]; it
    comes back normally and leaves the response writer and the request
    body alone. *)
Theorem checkRecaptchaToken_posts_once
    (E : Env) (remoteip response : string) (σ : World) :
  exists res form,
    checkRecaptchaToken E remoteip response σ =
      (Normal res,
       {| w := w σ; reqBody := reqBody σ;
          trace := trace σ ++ [EvPostForm recaptchaServerName form] |}) /\
    recaptchaServerName = "https://www.google.com/recaptcha/api/siteverify" /\
    form !! "secret" = Some [recaptchaPrivateKey E] /\
    dom form = ({["secret"; "remoteip"; "response"]} : gset string).
Proof.
  rewrite checkRecaptchaToken_eq. eexists _, _. split; [reflexivity|].
  split; [reflexivity|]. unfold verificationForm.
  split; [apply lookup_insert_eq|].
  rewrite !dom_insert_L, dom_empty_L. set_solver.
Qed.

(** X4.  The error of [checkRecaptchaToken] names the step that failed: a
    failed POST, a response body that cannot be read to its end, or a
    body that does not decode, each with the text of the underlying
    error; in the first two cases the result is the zero value.  With no
    failure the error is nil and the result is decoded from the whole
    response body, however long. *)
Theorem checkRecaptchaToken_result
    (E : Env) (remoteip response : string) (σ : World) :
  let form := verificationForm E remoteip response in
  let resp := (http_PostForm E recaptchaServerName form).1 in
  let decoded := json_Unmarshal_recaptchaResponse E (pending (resp_Body resp)) in
  let res := (checkRecaptchaToken E remoteip response σ).1 in
  (forall e, (http_PostForm E recaptchaServerName form).2 = Some e ->
     res = Normal (zero_recaptchaResponse,
                   Some (errorString ("Post to recaptcha error " +:+ Error e)))) /\
  (forall e, (http_PostForm E recaptchaServerName form).2 = None ->
     readError (resp_Body resp) = Some e ->
     res = Normal (zero_recaptchaResponse,
                   Some (errorString
                           ("Read error: could not read body " +:+ Error e)))) /\
  (forall e, (http_PostForm E recaptchaServerName form).2 = None ->
     readError (resp_Body resp) = None ->
     decoded.2 = Some e ->
     res = Normal (decoded.1,
                   Some (errorString ("Read error: got invalid JSON " +:+ Error e)))) /\
  ((http_PostForm E recaptchaServerName form).2 = None ->
   readError (resp_Body resp) = None ->
   decoded.2 = None ->
   res = Normal (decoded.1, None)).
Proof.
  cbv zeta. rewrite checkRecaptchaToken_eq. cbn [fst].
  unfold verification, verificationResult.
  destruct (http_PostForm E _ _) as [resp perr]. cbn [fst snd].
  repeat split.
  - intros e ->. reflexivity.
  - intros e -> ->. reflexivity.
  - intros e -> ->. destruct (json_Unmarshal_recaptchaResponse E _) as [rr uerr].
    cbn [fst snd]. intros ->. reflexivity.
  - intros -> ->. destruct (json_Unmarshal_recaptchaResponse E _) as [rr uerr].
    cbn [fst snd]. intros ->. reflexivity.
Qed.

Lemma checkRecaptchaToken_result_witness :
  (checkRecaptchaToken Cases.noNetwork "tok" "203.0.113.7" Cases.fresh).1 =
    Normal (zero_recaptchaResponse,
            Some (errorString "Post to recaptcha error dial tcp: timeout")).
Proof.
  apply (proj1 (checkRecaptchaToken_result Cases.noNetwork "tok" "203.0.113.7"
                  Cases.fresh) (errorString "dial tcp: timeout")).
  reflexivity.
Defined.

(** X5.  [addRecord] opens one writer on the object, copies the payload
    into it and closes it only if the copy went through: after a failed
    copy the error of the copy is returned and [Close] is never called.
    The error is nil exactly when both the copy and the close succeed.
    The response writer and the request body are not touched. *)
Theorem addRecord_outcome (E : Env) (id : string) (payload : bytes) (σ : World) :
  exists err σ',
    addRecord E id payload σ = (Normal err, σ') /\
    w σ' = w σ /\ reqBody σ' = reqBody σ /\
    (err = None <-> io_Copy E id payload = None /\ wc_Close E id payload = None) /\
    (forall e, io_Copy E id payload = Some e ->
       err = Some e /\
       trace σ' = trace σ ++ [EvNewWriter id; EvCopy id payload]) /\
    (io_Copy E id payload = None ->
       err = wc_Close E id payload /\
       trace σ' = trace σ ++ [EvNewWriter id; EvCopy id payload; EvClose id]).
Proof.
  rewrite addRecord_eq. eexists _, _. split; [reflexivity|].
  cbn [w reqBody trace]. unfold storeError, storeEvents.
  split; [reflexivity|]. split; [reflexivity|].
  destruct (io_Copy E id payload) as [ce|].
  - split; [split; [discriminate|intros [? _]; discriminate]|].
    split; [|discriminate]. intros e [= <-]. split; reflexivity.
  - split; [split; [intros ->; split; reflexivity|intros [_ ->]; reflexivity]|].
    split; [discriminate|]. intros _. split; reflexivity.
Qed.

Lemma addRecord_outcome_witness :
  exists err σ',
    addRecord (Demo.env "" "" true (Some (errorString "timeout")) 0)
      "k" [] Cases.fresh = (Normal err, σ') /\
    err = Some (errorString "timeout") /\
    trace σ' = [EvNewWriter "k"; EvCopy "k" []].
Proof.
  destruct (addRecord_outcome
              (Demo.env "" "" true (Some (errorString "timeout")) 0)
              "k" [] Cases.fresh)
    as (err & σ' & Hrun & _ & _ & _ & Hfail & _).
  exists err, σ'. split; [exact Hrun|].
  destruct (Hfail (errorString "timeout") eq_refl) as [He Ht].
  split; assumption.
Defined.

(** ** The handler: reading the body *)

Lemma requestReadError_Some (r : Request) (e : error) :
  requestReadError r = Some e <->
  Z.of_nat (length (pending (Body_ r))) < LIMIT /\
  ending (Body_ r) = Some e /\ e <> io_EOF.
Proof.
  unfold requestReadError, readError.
  destruct (Z.ltb_spec (Z.of_nat (length (pending (Body_ r)))) LIMIT) as [Hlt|Hge].
  - destruct (ending (Body_ r)) as [[|msg]|]; cbn [is_EOF].
    + split; [discriminate|]. intros (_ & [= <-] & Hne). contradiction.
    + split.
      * intros [= <-]. split; [assumption|]. split; [reflexivity|discriminate].
      * intros (_ & [= <-] & _). reflexivity.
    + split; [discriminate|]. intros (_ & Hn & _). discriminate.
  - split; [discriminate|]. intros (Hlt & _). lia.
Qed.

(** X6.  A body that breaks off with a transport error before the limit
    is reached is not decoded: the request is answered with status 400
    and the fixed message [must supply a payload], the error is logged,
    and the handler returns with the body consumed and nothing else done. *)
Theorem body_read_failure_is_rejected (E : Env) (r : Request) (msg : string) :
  Method r <> MethodOptions ->
  marshalTotal E ->
  Z.of_nat (length (pending (Body_ r))) < LIMIT ->
  ending (Body_ r) = Some (errorString msg) ->
  status (w (serve E r)) = StatusBadRequest /\
  written (w (serve E r)) = envelope E "error" "must supply a payload" /\
  trace (serve E r) = [EvLog msg] /\
  pending (reqBody (serve E r)) = [] /\
  (run E r).1 = Returned.
Proof.
  intros Hm Hmarshal Hlt Hend.
  assert (Hread : requestReadError r = Some (errorString msg)).
  { apply requestReadError_Some. split; [assumption|].
    split; [assumption|discriminate]. }
  by_path E r; try congruence.
  assert (e = errorString msg) by congruence. subst e.
  rewrite jsonWriter_total by assumption. cbn [Status Message].
  destruct (respond_mainWriter StatusBadRequest
              (envelope E "error" "must supply a payload") eq_refl)
    as (Hs & Hw & _).
  split; [exact Hs|]. split; [exact Hw|]. split; [reflexivity|].
  split; [|reflexivity].
  unfold requestRest. cbn [pending]. apply drop_ge. unfold LIMIT in *. lia.
Qed.

Lemma body_read_failure_is_rejected_witness :
  let E := Demo.env "key" "" true None 0 in
  status (w (serve E Cases.brokenRequest)) = StatusBadRequest /\
  written (w (serve E Cases.brokenRequest))
    = envelope E "error" "must supply a payload" /\
  trace (serve E Cases.brokenRequest) = [EvLog "unexpected EOF"] /\
  pending (reqBody (serve E Cases.brokenRequest)) = [] /\
  (run E Cases.brokenRequest).1 = Returned.
Proof.
  intros E. apply (body_read_failure_is_rejected E Cases.brokenRequest).
  - discriminate.
  - intros d. reflexivity.
  - unfold LIMIT. cbn. lia.
  - reflexivity.
Defined.

(** X7.  For a request that is not OPTIONS the decoder is left out
    exactly when the body ends with a transport error before [LIMIT]
    bytes; in every other case it is given the first [LIMIT] bytes of the
    body, which is the whole body when that has no more.  So an error of
    the transport at or after byte [LIMIT] is never seen. *)
Theorem decoder_runs_unless_read_fails (E : Env) (r : Request) :
  Method r <> MethodOptions ->
  (decoderInputs (trace (serve E r)) = [] <->
   Z.of_nat (length (pending (Body_ r))) < LIMIT /\
   exists e, ending (Body_ r) = Some e /\ e <> io_EOF) /\
  (decoderInputs (trace (serve E r)) <> [] ->
   decoderInputs (trace (serve E r)) =
     [take (Z.to_nat LIMIT) (pending (Body_ r))]) /\
  (Z.of_nat (length (pending (Body_ r))) <= LIMIT ->
   take (Z.to_nat LIMIT) (pending (Body_ r)) = pending (Body_ r)).
Proof.
  intros Hm.
  assert (Hwhole : Z.of_nat (length (pending (Body_ r))) <= LIMIT ->
            take (Z.to_nat LIMIT) (pending (Body_ r)) = pending (Body_ r)).
  { intros Hle. apply take_ge. unfold LIMIT in *. lia. }
  assert (Hnone : requestReadError r = None ->
            ~ (Z.of_nat (length (pending (Body_ r))) < LIMIT /\
               exists e, ending (Body_ r) = Some e /\ e <> io_EOF)).
  { intros Hn (Hlt & e & He & Hne).
    assert (requestReadError r = Some e) by (apply requestReadError_Some; auto).
    congruence. }
  by_path E r; project_trace; try contradiction.
  - split; [|split; [congruence|exact Hwhole]].
    split; [|reflexivity]. intros _.
    match goal with
    | Hr : requestReadError r = Some ?e |- _ =>
        apply requestReadError_Some in Hr as (Hlt & He & Hne);
        split; [assumption|]; exists e; auto
    end.
  - split; [|split; [reflexivity|exact Hwhole]].
    split; [discriminate|]. intros Hc. exfalso. apply Hnone; assumption.
  - split; [|split; [reflexivity|exact Hwhole]].
    split; [discriminate|]. intros Hc. exfalso. apply Hnone; assumption.
  - split; [|split; [reflexivity|exact Hwhole]].
    split; [discriminate|]. intros Hc. exfalso. apply Hnone; assumption.
  - split; [|split; [reflexivity|exact Hwhole]].
    split; [discriminate|]. intros Hc. exfalso. apply Hnone; assumption.
Qed.

Lemma decoder_runs_unless_read_fails_witness :
  decoderInputs (trace (serve (Demo.env "" "" true None 0) Cases.brokenRequest))
    = [].
Proof.
  apply (proj1 (decoder_runs_unless_read_fails (Demo.env "" "" true None 0)
                  Cases.brokenRequest ltac:(discriminate))).
  split; [unfold LIMIT; cbn; lia|].
  exists (errorString "unexpected EOF"). split; [reflexivity|discriminate].
Defined.

(** ** The handler: verification and storage *)

(** X8.  When the verification client returns an error, the handler
    answers with status 500 and the text of that error as the message,
    and returns: nothing is stored and nothing is logged. *)
Theorem verification_error_is_reported
    (E : Env) (r : Request) (url : string) (form : Values)
    (rr : recaptchaResponse) (e : error) :
  marshalTotal E ->
  In (url, form) (verificationCalls (trace (serve E r))) ->
  verificationResult E form = (rr, Some e) ->
  status (w (serve E r)) = StatusInternalServerError /\
  written (w (serve E r)) = envelope E "error" (Error e) /\
  storageWrites (trace (serve E r)) = [] /\
  logLines (trace (serve E r)) = [] /\
  (run E r).1 = Returned.
Proof.
  intros Hmarshal.
  by_path E r; project_trace; intros Hin Hres; try (destruct Hin; fail).
  - destruct Hin as [Heq|[]]. inversion Heq; subst url form.
    unfold verification in *.
    assert (e0 = e) by congruence. subst e0.
    rewrite jsonWriter_total by assumption. cbn [Status Message].
    destruct (respond_mainWriter StatusInternalServerError
                (envelope E "error" (Error e)) eq_refl) as (Hs & Hw & _).
    repeat split; assumption.
  - destruct Hin as [Heq|[]]. inversion Heq; subst url form.
    unfold verification in *. congruence.
Qed.

Lemma verification_error_is_reported_witness :
  let r := Demo.request "POST" "{}" in
  status (w (serve Cases.noNetwork r)) = StatusInternalServerError /\
  written (w (serve Cases.noNetwork r)) =
    envelope Cases.noNetwork "error" "Post to recaptcha error dial tcp: timeout" /\
  storageWrites (trace (serve Cases.noNetwork r)) = [] /\
  logLines (trace (serve Cases.noNetwork r)) = [] /\
  (run Cases.noNetwork r).1 = Returned.
Proof.
  intros r.
  apply (verification_error_is_reported Cases.noNetwork r recaptchaServerName
           (verificationForm Cases.noNetwork "tok" "203.0.113.7")
           zero_recaptchaResponse
           (errorString "Post to recaptcha error dial tcp: timeout")).
  - intros d. reflexivity.
  - vm_compute. left. reflexivity.
  - reflexivity.
Defined.

(** ** The handler: what every response looks like *)

Lemma mainWriter_header (k : string) :
  header mainWriter !! k =
    if decide (k = "Access-Control-Allow-Origin")
    then Some ["https://screencovid.com"]
    else if decide (k = "Access-Control-Allow-Credentials")
    then Some ["true"] else None.
Proof.
  unfold mainWriter, rw_Header_Set, Header_Set, newResponseWriter. cbn [header].
  rewrite lookup_insert. destruct (decide (_ = k)) as [<-|Hne1].
  - rewrite decide_True by reflexivity. reflexivity.
  - rewrite decide_False by congruence.
    rewrite lookup_insert. destruct (decide (_ = k)) as [<-|Hne2].
    + rewrite decide_True by reflexivity. reflexivity.
    + rewrite decide_False by congruence. apply lookup_empty.
Qed.

(** The writer the handler ends with on a request that is not OPTIONS:
    one [jsonResponse] on the main writer, possibly followed by another. *)
Lemma Path_main_writer (E : Env) (r : Request) (o : Outcome unit * World) :
  Path E r o ->
  Method r <> MethodOptions ->
  exists c d, continues (jsonWriter E c d mainWriter) (w o.2) /\
    (c = StatusOK \/ c = StatusBadRequest \/ c = StatusInternalServerError).
Proof.
  intros HP Hm. destruct HP; cbn [snd w]; try contradiction.
  - eexists _, _. split; [apply continues_refl, jsonWriter_fresh; reflexivity|auto].
  - eexists _, _. split; [apply continues_refl, jsonWriter_fresh; reflexivity|auto].
  - unfold storedWriter. destruct (storeError E _ _);
      (eexists _, _; split;
         [apply continues_refl, jsonWriter_fresh; reflexivity|auto]).
  - eexists _, _. split; [apply continues_refl, jsonWriter_fresh; reflexivity|auto].
  - unfold storedWriter, verifiedWriter. destruct (Success rr).
    + destruct (storeError E _ _);
        (eexists _, _; split;
           [apply continues_refl, jsonWriter_fresh; reflexivity|auto]).
    + exists StatusBadRequest, {| Status := "error"; Message := botMessage |}.
      split; [|auto].
      destruct (storeError E _ _);
        apply jsonWriter_started, jsonWriter_fresh; reflexivity.
Qed.

(** X9.  Every response to a request that is not OPTIONS carries the two
    CORS headers of the main request, [Access-Control-Allow-Credentials:
    true] and [Access-Control-Allow-Origin: https://screencovid.com],
    and none of the three headers only the preflight answer has; when
    [json.Marshal] does not fail its content type is [application/json]. *)
Theorem main_response_cors_headers (E : Env) (r : Request) :
  Method r <> MethodOptions ->
  let sent := sentHeader (w (serve E r)) in
  sent !! "Access-Control-Allow-Credentials" = Some ["true"] /\
  sent !! "Access-Control-Allow-Origin" = Some ["https://screencovid.com"] /\
  sent !! "Access-Control-Allow-Headers" = None /\
  sent !! "Access-Control-Allow-Methods" = None /\
  sent !! "Access-Control-Max-Age" = None /\
  (marshalTotal E -> sent !! "Content-Type" = Some ["application/json"]).
Proof.
  intros Hm sent. subst sent. unfold serve.
  destruct (Path_main_writer E r (run E r) (run_Path E r) Hm)
    as (c & d & (_ & _ & Hsent & _) & Hc).
  rewrite Hsent.
  destruct (jsonWriter_fresh E c d mainWriter eq_refl) as (_ & _ & Hother).
  rewrite !Hother by discriminate. rewrite !mainWriter_header.
  repeat (split; [reflexivity|]).
  intros Hmarshal. rewrite jsonWriter_total by assumption.
  rewrite respond_fresh; [apply lookup_insert_eq|reflexivity|].
  destruct Hc as [->|[->| ->]]; reflexivity.
Qed.

Lemma main_response_cors_headers_witness :
  let sent := sentHeader
                (w (serve (Demo.env "key" "" true None 0)
                      (Demo.request "POST" "oops"))) in
  sent !! "Access-Control-Allow-Credentials" = Some ["true"] /\
  sent !! "Access-Control-Allow-Origin" = Some ["https://screencovid.com"] /\
  sent !! "Access-Control-Allow-Headers" = None.
Proof.
  intros sent.
  destruct (main_response_cors_headers (Demo.env "key" "" true None 0)
              (Demo.request "POST" "oops") ltac:(discriminate))
    as (H1 & H2 & H3 & _).
  auto.
Defined.


(** X11.  A response with status 200 means the submission went through:
    the body decoded, the verification was skipped or returned a true
    success flag, exactly one storage write was made and it succeeded;
    the body of the response is the [ok] envelope alone and the handler
    ran to its end. *)
Theorem success_means_stored (E : Env) (r : Request) :
  marshalTotal E ->
  status (w (serve E r)) = StatusOK ->
  exists t,
    requestReadError r = None /\
    json_Unmarshal_serverRequest E (requestData r) = (t, None) /\
    storageWrites (trace (serve E r)) = [(storageKey E t, storagePayload E t)] /\
    storeError E (storageKey E t) (storagePayload E t) = None /\
    (verificationRequired E (ReCaptchaToken t) = false \/
     exists rr,
       verification E (ReCaptchaToken t) (forwardedFor r) = (rr, None) /\
       Success rr = true) /\
    written (w (serve E r)) = envelope E "ok" "thank you" /\
    (run E r).1 = Normal tt.
Proof.
  intros Hmarshal.
  by_path E r.
  - discriminate.
  - rewrite jsonWriter_total by assumption.
    rewrite respond_fresh by reflexivity. discriminate.
  - rewrite jsonWriter_total by assumption.
    rewrite respond_fresh by reflexivity. discriminate.
  - unfold storedWriter. destruct (storeError E _ _) eqn:Hstore;
      rewrite jsonWriter_total by assumption; cbn [Status Message];
      rewrite respond_fresh by reflexivity; cbn [status written mainWriter
        rw_Header_Set newResponseWriter app];
      [discriminate|].
    intros _. exists t. project_trace.
    repeat (split; [assumption || reflexivity|]).
    split; [apply storeEvents_projections|]. split; [assumption|].
    split; [left; assumption|]. split; reflexivity.
  - rewrite jsonWriter_total by assumption.
    rewrite respond_fresh by reflexivity. discriminate.
  - unfold storedWriter, verifiedWriter.
    destruct (Success rr) eqn:Hflag.
    + destruct (storeError E _ _) eqn:Hstore;
        rewrite jsonWriter_total by assumption; cbn [Status Message];
        rewrite respond_fresh by reflexivity; cbn [status written mainWriter
          rw_Header_Set newResponseWriter app];
        [discriminate|].
      intros _. exists t. project_trace.
      repeat (split; [assumption || reflexivity|]).
      split; [apply storeEvents_projections|]. split; [assumption|].
      split; [right; exists rr; auto|]. split; reflexivity.
    + intros Hs. exfalso. revert Hs.
      destruct (storeError E _ _);
        rewrite !jsonWriter_total by assumption;
        rewrite (respond_fresh StatusBadRequest) by reflexivity;
        rewrite respond_sent by reflexivity; cbn [status]; discriminate.
Qed.

Lemma success_means_stored_witness :
  let E := Demo.env "key" "" true None 0 in
  let r := Demo.request "POST" "{}" in
  exists t,
    storageWrites (trace (serve E r)) = [(storageKey E t, storagePayload E t)] /\
    written (w (serve E r)) = envelope E "ok" "thank you".
Proof.
  intros E r.
  destruct (success_means_stored E r) as (t & _ & _ & Hst & _ & _ & Hw & _).
  - intros d. reflexivity.
  - vm_compute. reflexivity.
  - exists t. auto.
Defined.

(** X12.  With a private key configured and a token that is not the
    bypass, a submission the service verifies (true success flag) and the
    store accepts is answered with status 200 and the [ok] envelope,
    after one verification call and one storage write. *)
Theorem verified_submission_is_stored
    (E : Env) (r : Request) (t : serverRequest) (rr : recaptchaResponse) :
  Method r <> MethodOptions ->
  marshalTotal E ->
  requestReadError r = None ->
  json_Unmarshal_serverRequest E (requestData r) = (t, None) ->
  verificationRequired E (ReCaptchaToken t) = true ->
  verification E (ReCaptchaToken t) (Header_Get "X-Forwarded-For" (Header r))
    = (rr, None) ->
  Success rr = true ->
  storeError E (storageKey E t) (storagePayload E t) = None ->
  status (w (serve E r)) = StatusOK /\
  written (w (serve E r)) = envelope E "ok" "thank you" /\
  length (verificationCalls (trace (serve E r))) = 1%nat /\
  storageWrites (trace (serve E r)) = [(storageKey E t, storagePayload E t)] /\
  (run E r).1 = Normal tt.
Proof.
  intros Hm Hmarshal Hread Hdec Hreq Hver Hflag Hstore.
  by_path E r; project_trace; try congruence.
  - unfold forwardedFor, verification in *. congruence.
  - assert (t0 = t) by congruence. subst t0.
    unfold forwardedFor in *. assert (rr0 = rr) by congruence. subst rr0.
    unfold storedWriter, verifiedWriter. rewrite Hflag, Hstore.
    rewrite jsonWriter_total by assumption. cbn [Status Message].
    destruct (respond_mainWriter StatusOK (envelope E "ok" "thank you") eq_refl)
      as (Hs & Hw & _).
    repeat split; assumption.
Qed.

Lemma verified_submission_is_stored_witness :
  let E := Demo.env "key" "" true None 0 in
  let r := Demo.request "POST" "{}" in
  status (w (serve E r)) = StatusOK /\
  length (verificationCalls (trace (serve E r))) = 1%nat.
Proof.
  intros E r.
  destruct (verified_submission_is_stored E r
              {| ReCaptchaToken := "tok"; ID := "abc";
                 Answers := bytes_of_string "{}" |}
              (Demo.unmarshalRecaptcha (bytes_of_string "1")).1)
    as (Hs & _ & Hn & _).
  - discriminate.
  - intros d. reflexivity.
  - reflexivity.
  - reflexivity.
  - reflexivity.
  - reflexivity.
  - reflexivity.
  - reflexivity.
  - auto.
Defined.

(** X13.  A failed verification followed by a successful storage write:
    the handler runs to its end and appends the [ok] envelope, so the
    response has status 400 and a body of two envelopes, the verification
    error and then [thank you]. *)
Theorem failed_verification_then_thank_you
    (E : Env) (r : Request) (url : string) (form : Values)
    (rr : recaptchaResponse) (key : string) (payload : bytes) :
  marshalTotal E ->
  In (url, form) (verificationCalls (trace (serve E r))) ->
  verificationResult E form = (rr, None) ->
  Success rr = false ->
  In (key, payload) (storageWrites (trace (serve E r))) ->
  storeError E key payload = None ->
  status (w (serve E r)) = StatusBadRequest /\
  written (w (serve E r)) =
    envelope E "error" "recaptcha thinks your are a bot"
    ++ envelope E "ok" "thank you" /\
  (run E r).1 = Normal tt.
Proof.
  intros Hmarshal.
  by_path E r; project_trace; intros Hin Hres Hflag Hkey Hstore;
    try (destruct Hin; fail).
  - destruct Hkey.
  - destruct Hin as [Heq|[]]. inversion Heq; subst url form.
    destruct Hkey as [Heq'|[]]. inversion Heq'; subst key payload.
    unfold verification in *.
    assert (rr0 = rr) by congruence. subst rr0.
    unfold storedWriter, verifiedWriter, botMessage.
    rewrite Hflag, Hstore. rewrite !jsonWriter_total by assumption.
    cbn [Status Message].
    rewrite (respond_fresh StatusBadRequest) by reflexivity.
    rewrite respond_sent by reflexivity.
    cbn [status written mainWriter rw_Header_Set newResponseWriter app].
    repeat split.
Qed.

Lemma failed_verification_then_thank_you_witness :
  let E := Demo.env "key" "" false None 0 in
  let r := Demo.request "POST" "{}" in
  status (w (serve E r)) = StatusBadRequest /\
  written (w (serve E r)) =
    envelope E "error" "recaptcha thinks your are a bot"
    ++ envelope E "ok" "thank you" /\
  (run E r).1 = Normal tt.
Proof.
  intros E r.
  apply (failed_verification_then_thank_you E r recaptchaServerName
           (verificationForm E "tok" "203.0.113.7")
           (Demo.unmarshalRecaptcha (bytes_of_string "0")).1
           "2020/04/13/12/00/abc" (bytes_of_string "{}")).
  - intros d. reflexivity.
  - vm_compute. left. reflexivity.
  - reflexivity.
  - reflexivity.
  - vm_compute. left. reflexivity.
  - reflexivity.
Defined.

(** ** The handler: calls and log lines *)

Lemma logLines_app (tr1 tr2 : list Event) :
  logLines (tr1 ++ tr2) = logLines tr1 ++ logLines tr2.
Proof. apply omap_app. Qed.

Lemma logLines_storeEvents (E : Env) (id : string) (payload : bytes) :
  logLines (storeEvents E id payload) = [].
Proof. unfold storeEvents. destruct (io_Copy E id payload); reflexivity. Qed.

(** A storage write of the handler is the write of a decoded submission. *)
Lemma storageWrites_serve (E : Env) (r : Request) (key : string) (payload : bytes) :
  In (key, payload) (storageWrites (trace (serve E r))) ->
  exists t,
    json_Unmarshal_serverRequest E (requestData r) = (t, None) /\
    key = storageKey E t /\ payload = storagePayload E t.
Proof.
  by_path E r; project_trace; intros Hin; try (destruct Hin; fail).
  all: destruct Hin as [Heq|[]]; inversion Heq; subst key payload.
  all: exists t; auto.
Qed.



(** X15.  The handler logs only the two input errors.  When a line is
    logged it is the only one, it is the text of the error of reading or
    of decoding the body, and the request was turned away before the
    verification and the storage step; errors of those steps are not
    logged. *)
Theorem only_input_errors_are_logged (E : Env) (r : Request) (line : string) :
  In line (logLines (trace (serve E r))) ->
  logLines (trace (serve E r)) = [line] /\
  ((exists e, requestReadError r = Some e /\ line = Error e) \/
   (exists e, requestReadError r = None /\
      (json_Unmarshal_serverRequest E (requestData r)).2 = Some e /\
      line = Error e)) /\
  verificationCalls (trace (serve E r)) = [] /\
  storageWrites (trace (serve E r)) = [] /\
  (run E r).1 = Returned.
Proof.
  by_path E r; rewrite ?logLines_app, ?logLines_storeEvents; project_trace;
    cbn [logLines omap list_omap app]; intros Hin; try (destruct Hin; fail).
  - destruct Hin as [<-|[]]. repeat split. left. exists e. auto.
  - destruct Hin as [<-|[]]. repeat split. right. exists e.
    match goal with
    | Hd : json_Unmarshal_serverRequest _ _ = _ |- _ => rewrite Hd
    end. auto.
Qed.

Lemma only_input_errors_are_logged_witness :
  let E := Demo.env "key" "" true None 0 in
  let r := Demo.request "POST" "oops" in
  logLines (trace (serve E r)) = ["invalid character"] /\
  storageWrites (trace (serve E r)) = [].
Proof.
  intros E r.
  destruct (only_input_errors_are_logged E r "invalid character")
    as (Hl & _ & _ & Hs & _).
  - vm_compute. left. reflexivity.
  - auto.
Defined.

(** ** The storage key and the clock *)

Lemma minute_of_wall_clock (s : Z) :
  s / 86400 = s / 60 / 1440 /\
  (s mod 86400) / 3600 = (s / 60 / 60) mod 24 /\
  (s mod 3600) / 60 = (s / 60) mod 60.
Proof. repeat split; Z.to_euclidean_division_equations; lia. Qed.

Lemma time_Format_same_minute (t1 t2 : time_Time) :
  wallSec t1 / 60 = wallSec t2 / 60 ->
  time_Format t1 "2006/01/02/15/04/" = time_Format t2 "2006/01/02/15/04/".
Proof.
  intros Hmin. rewrite !time_Format_layout.
  unfold time_Year, time_Month, time_Day, time_Date, time_Hour, time_Minute.
  destruct (minute_of_wall_clock (wallSec t1)) as (-> & -> & ->).
  destruct (minute_of_wall_clock (wallSec t2)) as (-> & -> & ->).
  rewrite Hmin. reflexivity.
Qed.

(** X16.  The key has the resolution of a minute: two submissions with the
    same identifier handled within the same minute of the wall clock are
    written under the same object name. *)
Theorem same_minute_same_key
    (E1 E2 : Env) (r1 r2 : Request) (t1 t2 : serverRequest)
    (key1 key2 : string) (payload1 payload2 : bytes) :
  In (key1, payload1) (storageWrites (trace (serve E1 r1))) ->
  In (key2, payload2) (storageWrites (trace (serve E2 r2))) ->
  json_Unmarshal_serverRequest E1 (requestData r1) = (t1, None) ->
  json_Unmarshal_serverRequest E2 (requestData r2) = (t2, None) ->
  wallSec (time_Now E1) / 60 = wallSec (time_Now E2) / 60 ->
  ID t1 = ID t2 ->
  key1 = key2.
Proof.
  intros H1 H2 Hd1 Hd2 Hmin Hid.
  apply storageWrites_serve in H1 as (t1' & Hd1' & -> & _).
  apply storageWrites_serve in H2 as (t2' & Hd2' & -> & _).
  assert (t1' = t1) by congruence. assert (t2' = t2) by congruence.
  subst t1' t2'. unfold storageKey.
  rewrite (time_Format_same_minute _ _ Hmin), Hid. reflexivity.
Qed.

Lemma same_minute_same_key_witness :
  let E1 := Demo.env "" "" true None 0 in
  let E2 := Demo.env "" "" true None 59 in
  storageWrites (trace (serve E1 (Demo.request "POST" "{}"))) =
    [("2020/04/13/12/00/abc", bytes_of_string "{}")] /\
  "2020/04/13/12/00/abc" = "2020/04/13/12/00/abc".
Proof.
  intros E1 E2. split; [vm_compute; reflexivity|].
  apply (same_minute_same_key E1 E2
           (Demo.request "POST" "{}") (Demo.request "PUT" "{x")
           {| ReCaptchaToken := "tok"; ID := "abc";
              Answers := bytes_of_string "{}" |}
           {| ReCaptchaToken := "tok"; ID := "abc";
              Answers := bytes_of_string "{x" |}
           "2020/04/13/12/00/abc" "2020/04/13/12/00/abc"
           (bytes_of_string "{}") (bytes_of_string "{x")).
  - vm_compute. left. reflexivity.
  - vm_compute. left. reflexivity.
  - reflexivity.
  - reflexivity.
  - vm_compute. reflexivity.
  - reflexivity.
Defined.

(** ** [init] *)

(** X17.  [init] gives up exactly when [BUCKET_NAME] is unset or empty or
    the storage client cannot be created, and then exits with code 1.
    Without a bucket name it writes its message to standard error and
    exits before any client is created.  When it succeeds, the bucket
    name is the one of the environment, non-empty, and the two reCAPTCHA
    settings are the values of their variables, empty when unset. *)
Theorem init_outcome (environ : gmap string string) (newClientErr : option error) :
  let res := init environ newClientErr in
  (res.1 = None <->
   os_Getenv environ "BUCKET_NAME" = "" \/ newClientErr <> None) /\
  (res.1 = None -> last res.2 = Some (EvExit 1)) /\
  (os_Getenv environ "BUCKET_NAME" = "" ->
   res.2 = [EvStderr ("BUCKET_NAME environment variable must be set."
                      +:+ String "010" EmptyString);
            EvExit 1]) /\
  (forall cfg, res.1 = Some cfg ->
     cfg_bucketName cfg = os_Getenv environ "BUCKET_NAME" /\
     cfg_bucketName cfg <> "" /\
     cfg_recaptchaPrivateKey cfg = default "" (environ !! "RECAPTCHA_PRIVATE_KEY") /\
     cfg_recaptchaBypass cfg = default "" (environ !! "RECAPTCHA_BYPASS") /\
     res.2 = [EvNewClient]).
Proof.
  cbv zeta. unfold init.
  destruct (String.eqb_spec (os_Getenv environ "BUCKET_NAME") "") as [Hb|Hb].
  - cbn [fst snd]. split; [split; [intros _; left; exact Hb|reflexivity]|].
    split; [reflexivity|]. split; [reflexivity|].
    intros cfg Hcfg. discriminate.
  - destruct newClientErr as [err|]; cbn [fst snd].
    + split; [split; [intros _; right; discriminate|reflexivity]|].
      split; [reflexivity|]. split; [contradiction|].
      intros cfg Hcfg. discriminate.
    + split; [split; [discriminate|intros [?|?]; contradiction]|].
      split; [discriminate|]. split; [contradiction|].
      intros cfg [= <-]. cbn. auto.
Qed.

Lemma init_outcome_witness :
  (init ∅ None).1 = None /\ last (init ∅ None).2 = Some (EvExit 1).
Proof.
  destruct (init_outcome ∅ None) as (Hiff & Hexit & _).
  assert (H : (init ∅ None).1 = None) by (apply Hiff; left; reflexivity).
  split; [exact H|exact (Hexit H)].
Defined.

(** X18.  A process started without [RECAPTCHA_PRIVATE_KEY] (unset or
    empty) never calls the verification service, whatever the request and
    whatever [RECAPTCHA_BYPASS] holds. *)
Theorem no_key_no_verification
    (environ : gmap string string) (newClientErr : option error)
    (cfg : Config) (E : Env) (r : Request) :
  (init environ newClientErr).1 = Some cfg ->
  configuredBy cfg E ->
  os_Getenv environ "RECAPTCHA_PRIVATE_KEY" = "" ->
  verificationCalls (trace (serve E r)) = [].
Proof.
  intros Hinit [Hkey _] Hunset.
  assert (Hempty : recaptchaPrivateKey E = "").
  { rewrite Hkey. unfold init in Hinit.
    destruct (String.eqb _ ""); [discriminate|].
    destruct newClientErr; [discriminate|].
    injection Hinit as <-. exact Hunset. }
  assert (Hreq : forall token, verificationRequired E token = false).
  { intros token. unfold verificationRequired. rewrite Hempty. reflexivity. }
  by_path E r; project_trace; try reflexivity; congruence.
Qed.

Lemma no_key_no_verification_witness :
  verificationCalls
    (trace (serve (Demo.env "" "" true None 0) (Demo.request "POST" "{}")))
    = [].
Proof.
  apply (no_key_no_verification Cases.environ None
           {| cfg_bucketName := "answers"; cfg_recaptchaPrivateKey := "";
              cfg_recaptchaBypass := "" |}).
  - reflexivity.
  - split; reflexivity.
  - reflexivity.
Defined.

(** ** The shape of the key *)

Lemma civil_from_days_bounds (days : Z) :
  1 <= (civil_from_days days).1.2 <= 12 /\
  1 <= (civil_from_days days).2 <= 31.
Proof.
  unfold civil_from_days. cbv zeta. cbn [fst snd].
  set (z := days + 719468).
  set (doe := z - z / 146097 * 146097).
  assert (Hdoe : 0 <= doe <= 146096).
  { subst doe. Z.to_euclidean_division_equations. lia. }
  clearbody doe. clear z.
  set (yoe := (doe - doe / 1460 + doe / 36524 - doe / 146096) / 365).
  set (doy := doe - (365 * yoe + yoe / 4 - yoe / 100)).
  assert (Hdoy : 0 <= doy <= 365).
  { subst doy yoe. Z.to_euclidean_division_equations. lia. }
  clearbody doy. clear yoe.
  set (mp := (5 * doy + 2) / 153).
  assert (Hmp : 0 <= mp <= 11).
  { subst mp. Z.to_euclidean_division_equations. lia. }
  assert (Hd : 1 <= doy - (153 * mp + 2) / 5 + 1 <= 31).
  { subst mp. Z.to_euclidean_division_equations. lia. }
  clearbody mp.
  destruct (Z.ltb_spec mp 10); lia.
Qed.

Lemma clock_bounds (t : time_Time) :
  1 <= time_Month t <= 12 /\ 1 <= time_Day t <= 31 /\
  0 <= time_Hour t <= 23 /\ 0 <= time_Minute t <= 59.
Proof.
  unfold time_Month, time_Day, time_Date, time_Hour, time_Minute.
  destruct (civil_from_days_bounds (wallSec t / 86400)) as [Hm Hd].
  split; [exact Hm|]. split; [exact Hd|].
  split; Z.to_euclidean_division_equations; lia.
Qed.

Lemma length_string_app (a b : string) :
  String.length (a +:+ b) = (String.length a + String.length b)%nat.
Proof.
  induction a as [|c a IH]; [reflexivity|].
  change (S (String.length (a +:+ b)) = S (String.length a + String.length b)).
  f_equal. exact IH.
Qed.

Lemma string_app_assoc (a b c : string) : (a +:+ b) +:+ c = a +:+ (b +:+ c).
Proof.
  induction a as [|x a IH]; [reflexivity|].
  change (String x ((a +:+ b) +:+ c) = String x (a +:+ (b +:+ c))).
  f_equal. exact IH.
Qed.

Lemma length_zeros (n : nat) : String.length (zeros n) = n.
Proof. induction n as [|n IH]; cbn; [reflexivity|]. rewrite IH. reflexivity. Qed.

(** The digit loop writes at least one digit and no more than the number
    needs. *)
Lemma length_utoa (fuel k : nat) (u : Z) (acc : string) :
  (1 <= k <= fuel)%nat ->
  0 <= u < 10 ^ Z.of_nat k ->
  (1 + String.length acc <= String.length (utoa fuel u acc)
   <= k + String.length acc)%nat.
Proof.
  revert k u acc. induction fuel as [|fuel IH]; intros k u acc Hk Hu; [lia|].
  cbn [utoa]. destruct (Z.ltb_spec u 10) as [Hlt|Hge].
  - cbn [String.length]. lia.
  - destruct k as [|[|k]]; [lia| change (10 ^ Z.of_nat 1) with 10 in Hu; lia |].
    assert (Hdiv : 0 <= u / 10 < 10 ^ Z.of_nat (S k)).
    { replace (Z.of_nat (S (S k))) with (Z.succ (Z.of_nat (S k))) in Hu by lia.
      rewrite Z.pow_succ_r in Hu by lia.
      split; [apply Z.div_pos; lia|].
      apply Z.div_lt_upper_bound; lia. }
    specialize (IH (S k) (u / 10) (String (digit (u mod 10)) acc)
                  ltac:(lia) Hdiv).
    cbn [String.length] in IH. lia.
Qed.

Lemma length_appendInt (x : Z) (width : nat) :
  (1 <= width <= 20)%nat ->
  0 <= x < 10 ^ Z.of_nat width ->
  String.length (appendInt x width) = width.
Proof.
  intros Hw Hx. unfold appendInt.
  destruct (Z.ltb_spec x 0); [lia|].
  rewrite Z.abs_eq by lia.
  pose proof (length_utoa 20 width x EmptyString ltac:(lia) Hx) as Hlen.
  cbn [String.length] in Hlen.
  rewrite !length_string_app, length_zeros. cbn [String.length]. lia.
Qed.

(** X19.  For a clock whose year has at most four digits, every key is
    made of five fields of fixed width, the year on four characters and
    the month, day, hour and minute on two each, every field followed by
    a slash, and then the identifier as it was sent: 17 characters come
    before the identifier. *)
Theorem storage_key_has_fixed_width_fields
    (E : Env) (r : Request) (key : string) (payload : bytes) :
  In (key, payload) (storageWrites (trace (serve E r))) ->
  0 <= time_Year (time_Now E) <= 9999 ->
  exists t year month day hour minute,
    json_Unmarshal_serverRequest E (requestData r) = (t, None) /\
    key = year +:+ "/" +:+ month +:+ "/" +:+ day +:+ "/" +:+ hour +:+ "/"
          +:+ minute +:+ "/" +:+ ID t /\
    String.length year = 4%nat /\ String.length month = 2%nat /\
    String.length day = 2%nat /\ String.length hour = 2%nat /\
    String.length minute = 2%nat /\
    String.length key = (17 + String.length (ID t))%nat.
Proof.
  intros Hin Hyear.
  apply storageWrites_serve in Hin as (t & Hdec & -> & _).
  destruct (clock_bounds (time_Now E)) as (Hmo & Hd & Hh & Hmi).
  assert (Ly : String.length (appendInt (time_Year (time_Now E)) 4) = 4%nat).
  { apply length_appendInt; [lia|]. change (10 ^ Z.of_nat 4) with 10000. lia. }
  assert (L2 : forall x, 0 <= x <= 59 -> String.length (appendInt x 2) = 2%nat).
  { intros x Hx. apply length_appendInt; [lia|].
    change (10 ^ Z.of_nat 2) with 100. lia. }
  exists t, (appendInt (time_Year (time_Now E)) 4),
    (appendInt (time_Month (time_Now E)) 2), (appendInt (time_Day (time_Now E)) 2),
    (appendInt (time_Hour (time_Now E)) 2), (appendInt (time_Minute (time_Now E)) 2).
  split; [exact Hdec|].
  assert (Hkey : storageKey E t =
    appendInt (time_Year (time_Now E)) 4 +:+ "/"
    +:+ appendInt (time_Month (time_Now E)) 2 +:+ "/"
    +:+ appendInt (time_Day (time_Now E)) 2 +:+ "/"
    +:+ appendInt (time_Hour (time_Now E)) 2 +:+ "/"
    +:+ appendInt (time_Minute (time_Now E)) 2 +:+ "/" +:+ ID t).
  { unfold storageKey. rewrite time_Format_layout.
    rewrite !string_app_assoc. reflexivity. }
  split; [exact Hkey|].
  split; [exact Ly|].
  split; [apply L2; lia|]. split; [apply L2; lia|].
  split; [apply L2; lia|]. split; [apply L2; lia|].
  rewrite Hkey. rewrite !length_string_app.
  rewrite Ly, !L2 by lia. cbn [String.length]. lia.
Qed.

Lemma storage_key_has_fixed_width_fields_witness :
  let E := Demo.env "" "" true None 0 in
  let r := Demo.request "POST" "{}" in
  exists t,
    json_Unmarshal_serverRequest E (requestData r) = (t, None) /\
    String.length "2020/04/13/12/00/abc" = (17 + String.length (ID t))%nat.
Proof.
  intros E r.
  destruct (storage_key_has_fixed_width_fields E r
              "2020/04/13/12/00/abc" (bytes_of_string "{}"))
    as (t & _ & _ & _ & _ & _ & Hdec & _ & _ & _ & _ & _ & _ & Hlen).
  - vm_compute. left. reflexivity.
  - vm_compute. split; discriminate.
  - exists t. auto.
Defined.
